(** * Ro-DOU notification and configuration core

    A shallow embedding of [src/parsers.py], [src/notification/email_sender.py]
    and [src/notification/slack_sender.py], with the properties of the
    report pipeline and of the YAML normalisation layer.

    Python [str] values are modelled as [string], read as the UTF-8 bytes of
    the text.  Ordered mappings (Python [dict]) are association lists in
    insertion order.  Exceptions are the [Raise] case of [py_result]. *)

From Stdlib Require Import String Ascii List Bool ZArith Lia DecimalString.
Import ListNotations.
Open Scope string_scope.

(** ** Characters and string helpers *)

Definition LF : ascii := ascii_of_nat 10.
Definition CR : ascii := ascii_of_nat 13.
Definition DQ : ascii := ascii_of_nat 34.

Definition chr (a : ascii) : string := String a EmptyString.
Definition nl : string := chr LF.
Definition dq : string := chr DQ.

(** [sep.join(parts)] *)
Fixpoint join (sep : string) (parts : list string) : string :=
  match parts with
  | [] => ""
  | [p] => p
  | p :: rest => p ++ sep ++ join sep rest
  end.

(** [s.split(c)] for a one-character separator: never the empty list. *)
Fixpoint split (c : ascii) (s : string) : list string :=
  match s with
  | EmptyString => [""]
  | String a s' =>
      if Ascii.eqb a c then "" :: split c s'
      else match split c s' with
           | [] => [chr a]
           | p :: ps => String a p :: ps
           end
  end.

(** [s.split("/")[-1]] *)
Definition last_component (s : string) : string := last (split "/" s) "".

(** Line boundaries of [str.splitlines], on UTF-8 bytes: LF, CR, CR LF,
    VT, FF, FS, GS, RS, NEL (C2 85), LS (E2 80 A8), PS (E2 80 A9). *)
Definition is_line_break1 (a : ascii) : bool :=
  let n := nat_of_ascii a in
  Nat.eqb n 10 || Nat.eqb n 11 || Nat.eqb n 12 || Nat.eqb n 13
  || Nat.eqb n 28 || Nat.eqb n 29 || Nat.eqb n 30.

Definition flush_line (cur : string) (acc : list string) : list string :=
  match cur with EmptyString => acc | _ => cur :: acc end.

(** [splitlines_from s cur] reads [s] with [cur] the text of the line
    being read; a last line without a boundary is kept only when it is not
    empty. *)
Fixpoint splitlines_from (s : string) (cur : string) : list string :=
  match s with
  | EmptyString => flush_line cur []
  | String a s1 =>
      let n := nat_of_ascii a in
      if Nat.eqb n 13 then
        match s1 with
        | String b s2 =>
            if Nat.eqb (nat_of_ascii b) 10
            then cur :: splitlines_from s2 ""
            else cur :: splitlines_from s1 ""
        | EmptyString => [cur]
        end
      else if is_line_break1 a then cur :: splitlines_from s1 ""
      else if Nat.eqb n 194 then
        match s1 with
        | String b s2 =>
            if Nat.eqb (nat_of_ascii b) 133
            then cur :: splitlines_from s2 ""
            else splitlines_from s1 (cur ++ chr a)
        | EmptyString => [cur ++ chr a]
        end
      else if Nat.eqb n 226 then
        match s1 with
        | String b (String c s3) =>
            if Nat.eqb (nat_of_ascii b) 128
               && (Nat.eqb (nat_of_ascii c) 168
                   || Nat.eqb (nat_of_ascii c) 169)
            then cur :: splitlines_from s3 ""
            else splitlines_from s1 (cur ++ chr a)
        | _ => splitlines_from s1 (cur ++ chr a)
        end
      else splitlines_from s1 (cur ++ chr a)
  end.

(** [s.splitlines()] *)
Definition splitlines (s : string) : list string := splitlines_from s "".

(** Substring test, [sub in s]. *)
Fixpoint contains (s sub : string) : bool :=
  String.prefix sub s ||
  match s with
  | EmptyString => false
  | String _ s' => contains s' sub
  end.

(** ** Python values, exceptions and the error monad *)

Module Py.

(** The values a loaded YAML document or a parsed literal is made of.
    Mappings have [str] keys. *)
#[warnings="-register-all"]
Inductive pyvalue : Type :=
| PyNone
| PyBool (b : bool)
| PyInt (z : Z)
| PyStr (s : string)
| PyList (items : list pyvalue)
| PyDict (entries : list (string * pyvalue)).

Inductive exn : Type :=
| ValueError (msg : string)
| SyntaxError
| KeyError (key : string)
| TypeError
| AttributeError
| UnboundLocalError (name : string)
| HTTPError (status : Z)
| OtherError (name : string).

Inductive py_result (A : Type) : Type :=
| Return (a : A)
| Raise (e : exn).
Arguments Return {A} a.
Arguments Raise {A} e.

Definition bind {A B} (c : py_result A) (k : A -> py_result B) : py_result B :=
  match c with
  | Return a => k a
  | Raise e => Raise e
  end.

Declare Scope py_scope.
Delimit Scope py_scope with py.
Notation "x <- c ;; k" := (bind c (fun x => k))
  (at level 61, c at next level, right associativity) : py_scope.
Notation "' pat <- c ;; k" := (bind c (fun x => match x with pat => k end))
  (at level 61, pat pattern, c at next level, right associativity) : py_scope.
Open Scope py_scope.

(** [for x in xs: f(x)], collecting the results, stopping at the first
    exception. *)
Fixpoint for_each {A B} (f : A -> py_result B) (xs : list A)
  : py_result (list B) :=
  match xs with
  | [] => Return []
  | x :: rest =>
      y <- f x ;;
      ys <- for_each f rest ;;
      Return (y :: ys)
  end.

(** Lookup of a key in an ordered mapping. *)
Fixpoint lookup {V} (k : string) (m : list (string * V)) : option V :=
  match m with
  | [] => None
  | (k', v) :: rest => if String.eqb k k' then Some v else lookup k rest
  end.

(** [k in m] *)
Definition mem {V} (k : string) (m : list (string * V)) : bool :=
  match lookup k m with Some _ => true | None => false end.

(** Truth value of an object, [bool(v)]. *)
Definition truthy (v : pyvalue) : bool :=
  match v with
  | PyNone => false
  | PyBool b => b
  | PyInt z => negb (Z.eqb z 0)
  | PyStr s => negb (String.eqb s "")
  | PyList l => match l with [] => false | _ => true end
  | PyDict m => match m with [] => false | _ => true end
  end.

(** [variable[field]] with a [str] subscript. *)
Definition subscript (variable : pyvalue) (field : string)
  : py_result pyvalue :=
  match variable with
  | PyDict m =>
      match lookup field m with
      | Some v => Return v
      | None => Raise (KeyError field)
      end
  | _ => Raise TypeError
  end.

(** [variable.get(field, default)] *)
Definition get (variable : pyvalue) (field : string) (default : pyvalue)
  : py_result pyvalue :=
  match variable with
  | PyDict m =>
      match lookup field m with
      | Some v => Return v
      | None => Return default
      end
  | _ => Raise AttributeError
  end.

Definition as_str (v : pyvalue) : option string :=
  match v with PyStr s => Some s | _ => None end.

Fixpoint all_str (l : list pyvalue) : option (list string) :=
  match l with
  | [] => Some []
  | v :: rest =>
      match as_str v, all_str rest with
      | Some s, Some ss => Some (s :: ss)
      | _, _ => None
      end
  end.

(** The code points of a text, each as its UTF-8 bytes: a byte of the form
    10xxxxxx continues the code point before it. *)
Definition is_continuation (a : ascii) : bool :=
  let n := nat_of_ascii a in Nat.leb 128 n && Nat.ltb n 192.

Fixpoint code_points (s : string) : list string :=
  match s with
  | EmptyString => []
  | String a s' =>
      match code_points s' with
      | p :: ps =>
          match s' with
          | String b _ =>
              if is_continuation b then String a p :: ps
              else chr a :: p :: ps
          | EmptyString => chr a :: p :: ps
          end
      | [] => [chr a]
      end
  end.

(** [sep.join(v)]: [v] must be an iterable of [str]. *)
Definition py_join (sep : string) (v : pyvalue) : py_result string :=
  match v with
  | PyList l =>
      match all_str l with
      | Some ss => Return (join sep ss)
      | None => Raise TypeError
      end
  | PyDict m => Return (join sep (map fst m))
  | PyStr s => Return (join sep (code_points s))
  | _ => Raise TypeError
  end.

(** Equality of hashable objects, as [set] sees it ([True == 1]). *)
Definition atom_eqb (a b : pyvalue) : bool :=
  match a, b with
  | PyNone, PyNone => true
  | PyBool x, PyBool y => Bool.eqb x y
  | PyInt x, PyInt y => Z.eqb x y
  | PyBool x, PyInt y | PyInt y, PyBool x => Z.eqb (if x then 1 else 0) y
  | PyStr x, PyStr y => String.eqb x y
  | _, _ => false
  end.

Definition hashable (v : pyvalue) : bool :=
  match v with PyList _ | PyDict _ => false | _ => true end.

(** [set(v)] for a list: the elements without repetition (first
    occurrences, in order); an unhashable element is a [TypeError]. *)
Fixpoint set_add (x : pyvalue) (s : list pyvalue) : list pyvalue :=
  match s with
  | [] => [x]
  | y :: rest => if atom_eqb x y then s else y :: set_add x rest
  end.

Fixpoint set_of_list (acc : list pyvalue) (l : list pyvalue)
  : py_result (list pyvalue) :=
  match l with
  | [] => Return acc
  | x :: rest =>
      if hashable x then set_of_list (set_add x acc) rest
      else Raise TypeError
  end.

End Py.
Import Py.

(** ** [src/parsers.py] *)

Module Parsers.

(** What the parser reads from outside the repository: Airflow's
    [Variable.get], [ast.literal_eval] and [textwrap.dedent].  The document
    is the value [yaml.safe_load] returned for the file. *)
Class Externals : Type := {
  Variable_get : pyvalue -> py_result string;
  literal_eval : string -> py_result pyvalue;
  textwrap_dedent : pyvalue -> py_result pyvalue
}.

(** [proc_subsearch], the keyword arguments of one [SearchConfig]. *)
Record SearchConfig : Type := {
  header : pyvalue;
  sources : pyvalue;
  territory_id : pyvalue;
  dou_sections : pyvalue;
  field : pyvalue;
  search_date : pyvalue;
  is_exact_search : pyvalue;
  ignore_signature_match : pyvalue;
  force_rematch : pyvalue;
  full_text : pyvalue;
  use_summary : pyvalue;
  terms : pyvalue;
  sql : pyvalue;
  conn_id : pyvalue;
  department : pyvalue
}.

Record DAGConfig : Type := {
  dag_id : pyvalue;
  search : list SearchConfig;
  emails : pyvalue;
  subject : pyvalue;
  attach_csv : pyvalue;
  discord_webhook : pyvalue;
  slack_webhook : pyvalue;
  schedule : pyvalue;
  dataset : pyvalue;
  description : pyvalue;
  skip_null : pyvalue;
  doc_md : pyvalue;
  dag_tags : list pyvalue;
  owner : string;
  hide_filters : pyvalue;
  header_text : pyvalue;
  footer_text : pyvalue;
  no_results_found_text : pyvalue
}.

Record YAMLParser : Type := { filepath : string }.

(** The default message of [_try_get]. *)
Definition mandatory_msg (field : string) : string :=
  "O campo `" ++ field ++ "` é obrigatório.".

Definition file_error (self : YAMLParser) (error_msg : string) : string :=
  "Erro no arquivo " ++ last_component (filepath self) ++ ": " ++ error_msg.

Definition _try_get (self : YAMLParser) (variable : pyvalue) (field : string)
  (error_msg : option string) : py_result pyvalue :=
  match subscript variable field with
  | Raise (KeyError _) =>
      let error_msg :=
        match error_msg with
        | Some m => if String.eqb m "" then mandatory_msg field else m
        | None => mandatory_msg field
        end in
      Raise (ValueError (file_error self error_msg))
  | r => r
  end.

Definition terms_shape_msg : string :=
  "O campo `terms` aceita como valores válidos "
  ++ "uma lista de strings ou parâmetros do tipo "
  ++ "`from_airflow_variable` ou `from_db_select`.".

Section WithExternals.
Context {ext : Externals}.

Definition _get_terms_params (self : YAMLParser) (search : pyvalue)
  : py_result (pyvalue * pyvalue * pyvalue) :=
  terms <- _try_get self search "terms" None ;;
  match terms with
  | PyDict m =>
      match lookup "from_airflow_variable" m with
      | Some name =>
          var_value <- Variable_get name ;;
          match literal_eval var_value with
          | Return v => Return (v, PyNone, PyNone)
          | Raise (ValueError _) | Raise SyntaxError =>
              Return (PyList (map PyStr (splitlines var_value)),
                      PyNone, PyNone)
          | Raise e => Raise e
          end
      | None =>
          match lookup "from_db_select" m with
          | Some from_db_select =>
              sql <- _try_get self from_db_select "sql" None ;;
              conn_id <- _try_get self from_db_select "conn_id" None ;;
              Return (PyList [], sql, conn_id)
          | None => Raise (ValueError terms_shape_msg)
          end
      end
  | _ => Return (terms, PyNone, PyNone)
  end.

(** The body of the loop over [search]. *)
Definition parse_subsearch (self : YAMLParser) (subsearch : pyvalue)
  : py_result SearchConfig :=
  header <- get subsearch "header" PyNone ;;
  sources <- get subsearch "sources" (PyList [PyStr "DOU"]) ;;
  '(terms, sql, conn_id) <- _get_terms_params self subsearch ;;
  territory_id <- get subsearch "territory_id" PyNone ;;
  dou_sections <- get subsearch "dou_sections" (PyList [PyStr "TODOS"]) ;;
  search_date <- get subsearch "date" (PyStr "DIA") ;;
  field <- get subsearch "field" (PyStr "TUDO") ;;
  is_exact_search <- get subsearch "is_exact_search" (PyBool true) ;;
  ignore_signature_match <-
    get subsearch "ignore_signature_match" (PyBool false) ;;
  force_rematch <- get subsearch "force_rematch" PyNone ;;
  full_text <- get subsearch "full_text" PyNone ;;
  use_summary <- get subsearch "use_summary" PyNone ;;
  department <- get subsearch "department" PyNone ;;
  Return {| header := header; sources := sources;
            territory_id := territory_id; dou_sections := dou_sections;
            field := field; search_date := search_date;
            is_exact_search := is_exact_search;
            ignore_signature_match := ignore_signature_match;
            force_rematch := force_rematch; full_text := full_text;
            use_summary := use_summary; terms := terms; sql := sql;
            conn_id := conn_id; department := department |}.

(** [report[key]["webhook"] if report.get(key) else None] *)
Definition webhook_of (report : pyvalue) (key : string) : py_result pyvalue :=
  present <- get report key PyNone ;;
  if truthy present then
    sink <- subscript report key ;;
    subscript sink "webhook"
  else Return PyNone.

(** [dag_tags.append(tag)] *)
Definition append (l : pyvalue) (x : pyvalue) : py_result pyvalue :=
  match l with
  | PyList items => Return (PyList (items ++ [x]))
  | _ => Raise AttributeError
  end.

Definition py_set (v : pyvalue) : py_result (list pyvalue) :=
  match v with
  | PyList items => set_of_list [] items
  | _ => Raise TypeError
  end.

Definition _parse_yaml (self : YAMLParser) (dag_config_dict : pyvalue)
  : py_result DAGConfig :=
  dag <- _try_get self dag_config_dict "dag" None ;;
  dag_id <- _try_get self dag "id" None ;;
  description <- _try_get self dag "description" None ;;
  report <- _try_get self dag "report" None ;;
  search <- _try_get self dag "search" None ;;
  let search := match search with PyList l => l | _ => [search] end in
  proc_search <- for_each (parse_subsearch self) search ;;
  owner_list <- get dag "owner" (PyList []) ;;
  owner <- py_join ", " owner_list ;;
  discord_webhook <- webhook_of report "discord" ;;
  slack_webhook <- webhook_of report "slack" ;;
  schedule <- get dag "schedule" PyNone ;;
  dataset <- get dag "dataset" PyNone ;;
  doc_md <- get dag "doc_md" PyNone ;;
  doc_md <- (if truthy doc_md then textwrap_dedent doc_md else Return doc_md) ;;
  dag_tags <- get dag "tags" (PyList []) ;;
  dag_tags <- append dag_tags (PyStr "dou") ;;
  dag_tags <- append dag_tags (PyStr "generated_dag") ;;
  skip_null <- get report "skip_null" (PyBool true) ;;
  emails <- get report "emails" PyNone ;;
  subject <- get report "subject" (PyStr "Extraçao do DOU") ;;
  attach_csv <- get report "attach_csv" (PyBool false) ;;
  hide_filters <- get report "hide_filters" (PyBool false) ;;
  header_text <- get report "header_text" PyNone ;;
  footer_text <- get report "footer_text" PyNone ;;
  no_results_found_text <-
    get report "no_results_found_text"
      (PyStr "Nenhum dos termos pesquisados foi encontrado nesta consulta") ;;
  tag_set <- py_set dag_tags ;;
  Return {| dag_id := dag_id; search := proc_search; emails := emails;
            subject := subject; attach_csv := attach_csv;
            discord_webhook := discord_webhook;
            slack_webhook := slack_webhook; schedule := schedule;
            dataset := dataset; description := description;
            skip_null := skip_null; doc_md := doc_md; dag_tags := tag_set;
            owner := owner; hide_filters := hide_filters;
            header_text := header_text; footer_text := footer_text;
            no_results_found_text := no_results_found_text |}.

Definition parse (self : YAMLParser) (dag_config_dict : pyvalue)
  : py_result DAGConfig :=
  _parse_yaml self dag_config_dict.

(** [parse] from the file, with lines 80-81 of [_parse_yaml]: [load]
    stands for opening the file at [filepath] and handing it to
    [yaml.safe_load], both outside the repository; whatever it raises
    (an [OSError], a YAML error, the [ValueError] of a text that is not
    UTF-8, ...) comes out of [parse]. *)
Definition parse_file (load : string -> py_result pyvalue)
  (self : YAMLParser) : py_result DAGConfig :=
  dag_config_dict <- load (filepath self) ;;
  _parse_yaml self dag_config_dict.

End WithExternals.

End Parsers.

(** ** A reader for a fragment of Python literals

    [ast.literal_eval] belongs to the Python library.  The results about
    the parser hold for any function in its place; the worked examples use
    the reader below, which follows it on texts of the grammar

      value ::= digits | 'chars' | "chars" | [value, ...] | {str: value, ...}

    (blanks and line breaks between tokens, no escapes, no sign, one
    trailing comma allowed, a later entry of a mapping replacing an earlier
    one with the same key) and answers [SyntaxError] on every other text,
    in particular on words separated by line breaks.  Literals outside this
    grammar (floats, tuples, escapes, adjacent string literals, an
    indented literal after a leading line break, ...) are not covered by
    it.  The
    fuel is the length of the text: every call reads at least one
    character. *)

Module Literal.

(** Blanks and line breaks: between the tokens of one bracketed literal,
    and around it, they do not count. *)
Fixpoint skip_blanks (s : string) : string :=
  match s with
  | String a s' =>
      if Nat.eqb (nat_of_ascii a) 32 || Nat.eqb (nat_of_ascii a) 9
         || Nat.eqb (nat_of_ascii a) 10 || Nat.eqb (nat_of_ascii a) 13
         || Nat.eqb (nat_of_ascii a) 12
      then skip_blanks s' else s
  | EmptyString => s
  end.

Definition is_digit (a : ascii) : bool :=
  Nat.leb 48 (nat_of_ascii a) && Nat.leb (nat_of_ascii a) 57.

Fixpoint read_digits (s : string) (acc : Z) : Z * string :=
  match s with
  | String a s' =>
      if is_digit a
      then read_digits s' (10 * acc + Z.of_nat (nat_of_ascii a - 48))
      else (acc, s)
  | EmptyString => (acc, s)
  end.

(** The characters up to the closing quote [q]. *)
Fixpoint read_quoted (q : ascii) (s : string) : option (string * string) :=
  match s with
  | EmptyString => None
  | String a s' =>
      if Ascii.eqb a q then Some ("", s')
      else if Nat.eqb (nat_of_ascii a) 92 || Nat.eqb (nat_of_ascii a) 10
              || Nat.eqb (nat_of_ascii a) 13
      then None
      else match read_quoted q s' with
           | Some (body, rest) => Some (String a body, rest)
           | None => None
           end
  end.

Definition is_quote (a : ascii) : bool :=
  Nat.eqb (nat_of_ascii a) 39 || Nat.eqb (nat_of_ascii a) 34.

(** [m[k] = v]: a key already present keeps its place. *)
Fixpoint dict_set (k : string) (v : pyvalue) (m : list (string * pyvalue))
  : list (string * pyvalue) :=
  match m with
  | [] => [(k, v)]
  | (k', v') :: rest =>
      if String.eqb k k' then (k, v) :: rest else (k', v') :: dict_set k v rest
  end.

Definition dict_of_entries (entries : list (string * pyvalue))
  : list (string * pyvalue) :=
  fold_left (fun m kv => dict_set (fst kv) (snd kv) m) entries [].

Fixpoint read_value (fuel : nat) (s : string) : option (pyvalue * string) :=
  match fuel with
  | O => None
  | S fuel =>
      match skip_blanks s with
      | EmptyString => None
      | String a s' =>
          if is_quote a then
            match read_quoted a s' with
            | Some (body, rest) => Some (PyStr body, rest)
            | None => None
            end
          else if is_digit a then
            let '(z, rest) := read_digits (String a s') 0 in
            (* a leading zero is allowed only in a literal made of zeros *)
            if Nat.eqb (nat_of_ascii a) 48 && negb (Z.eqb z 0) then None
            else Some (PyInt z, rest)
          else if Nat.eqb (nat_of_ascii a) 91 then
            match read_items fuel s' with
            | Some (items, rest) => Some (PyList items, rest)
            | None => None
            end
          else if Nat.eqb (nat_of_ascii a) 123 then
            match read_entries fuel s' with
            | Some (entries, rest) =>
                Some (PyDict (dict_of_entries entries), rest)
            | None => None
            end
          else None
      end
  end
(** after an opening bracket or a comma: the items up to the closing one *)
with read_items (fuel : nat) (s : string)
  : option (list pyvalue * string) :=
  match fuel with
  | O => None
  | S fuel =>
      match skip_blanks s with
      | String a s' =>
          if Nat.eqb (nat_of_ascii a) 93 then Some ([], s')
          else
            match read_value fuel (String a s') with
            | Some (v, rest) =>
                match skip_blanks rest with
                | String b rest' =>
                    if Nat.eqb (nat_of_ascii b) 93 then Some ([v], rest')
                    else if Nat.eqb (nat_of_ascii b) 44 then
                      match read_items fuel rest' with
                      | Some (vs, rest'') => Some (v :: vs, rest'')
                      | None => None
                      end
                    else None
                | EmptyString => None
                end
            | None => None
            end
      | EmptyString => None
      end
  end
with read_entries (fuel : nat) (s : string)
  : option (list (string * pyvalue) * string) :=
  match fuel with
  | O => None
  | S fuel =>
      match skip_blanks s with
      | String a s' =>
          if Nat.eqb (nat_of_ascii a) 125 then Some ([], s')
          else if is_quote a then
            match read_quoted a s' with
            | Some (key, rest) =>
                match skip_blanks rest with
                | String c rest1 =>
                    if Nat.eqb (nat_of_ascii c) 58 then
                      match read_value fuel rest1 with
                      | Some (v, rest2) =>
                          match skip_blanks rest2 with
                          | String b rest3 =>
                              if Nat.eqb (nat_of_ascii b) 125
                              then Some ([(key, v)], rest3)
                              else if Nat.eqb (nat_of_ascii b) 44 then
                                match read_entries fuel rest3 with
                                | Some (es, rest4) =>
                                    Some ((key, v) :: es, rest4)
                                | None => None
                                end
                              else None
                          | EmptyString => None
                          end
                      | None => None
                      end
                    else None
                | EmptyString => None
                end
            | None => None
            end
          else None
      | EmptyString => None
      end
  end.

Definition literal_eval (s : string) : py_result pyvalue :=
  match read_value (S (String.length s)) s with
  | Some (v, rest) =>
      match skip_blanks rest with
      | EmptyString => Return v
      | _ => Raise SyntaxError
      end
  | None => Raise SyntaxError
  end.

End Literal.

(** ** The search report *)

Module Report.

Record Match : Type := {
  section : string;
  href : string;
  title : string;
  abstract : string;
  date : string
}.

(** term -> matches, and group -> term -> matches, in insertion order. *)
Definition term_results : Type := list (string * list Match).
Definition group_results : Type := list (string * term_results).

(** One block of the report handed to [EmailSender.send]. *)
Record SearchBlock : Type := {
  header : option string;
  department : option (list string);
  result : group_results
}.

Definition single_group : string := "single_group".

(** The fields of [DAGConfig] the senders read, at their declared types. *)
Record Specs : Type := {
  subject : string;
  emails : list string;
  attach_csv : bool;
  skip_null : bool;
  slack_webhook : string
}.

End Report.
Import Report.

(** ** [pandas.DataFrame], as far as the CSV export uses it *)

Module Pandas.

Inductive label : Type :=
| Pos (n : nat)
| Name (s : string).

Definition label_eqb (a b : label) : bool :=
  match a, b with
  | Pos n, Pos m => Nat.eqb n m
  | Name s, Name t => String.eqb s t
  | _, _ => false
  end.

(** A cell is a [str] or [None]. *)
Definition cell : Type := option string.

Record DataFrame : Type := {
  columns : list label;
  rows : list (list cell)
}.

(** [pd.DataFrame(records)]: positional labels, as many as a record has
    fields; no column at all for an empty list of records. *)
Definition of_records (records : list (list cell)) : DataFrame :=
  {| columns := map Pos (seq 0 (match records with
                                 | [] => 0
                                 | r :: _ => List.length r
                                 end));
     rows := records |}.

Definition decimal (n : nat) : string :=
  DecimalString.NilEmpty.string_of_uint (Nat.to_uint n).

(** [df.columns = names] *)
Definition set_columns (df : DataFrame) (names : list string)
  : py_result DataFrame :=
  if Nat.eqb (List.length (columns df)) (List.length names)
  then Return {| columns := map Name names; rows := rows df |}
  else Raise (ValueError
                ("Length mismatch: Expected axis has "
                 ++ decimal (List.length (columns df))
                 ++ " elements, new values have "
                 ++ decimal (List.length names) ++ " elements")).

Fixpoint index_of (l : label) (cols : list label) : option nat :=
  match cols with
  | [] => None
  | c :: rest =>
      if label_eqb l c then Some 0
      else match index_of l rest with
           | Some i => Some (S i)
           | None => None
           end
  end.

Fixpoint remove_at {A} (i : nat) (l : list A) : list A :=
  match l, i with
  | [], _ => []
  | _ :: rest, O => rest
  | x :: rest, S i => x :: remove_at i rest
  end.

(** [del df[name]] *)
Definition del_column (df : DataFrame) (name : string)
  : py_result DataFrame :=
  match index_of (Name name) (columns df) with
  | Some i => Return {| columns := remove_at i (columns df);
                        rows := map (remove_at i) (rows df) |}
  | None => Raise (KeyError name)
  end.

End Pandas.

(** ** [src/notification/email_sender.py] *)

Module EmailSender.
Import Pandas.

(** List concatenation, apart from the [++] of strings. *)
Local Infix "+++" := (@app _) (right associativity, at level 60).

(** The temporary file of [get_csv_tempfile], by what was written to it. *)
Record TempFile : Type := {
  prefix : string;
  suffix : string;
  written : DataFrame
}.

(** One call of Airflow's [send_email]. *)
Record MailCall : Type := {
  to : list string;
  mail_subject : string;
  files : list TempFile;
  html_content : string;
  mime_charset : string
}.

(** What the sender uses from outside the repository: the style sheet
    [report_style.css], [markdown.markdown], [textwrap.dedent],
    [textwrap.indent] and the mail sink [send_email]. *)
Class Externals : Type := {
  report_style_css : string;
  markdown : string -> string;
  textwrap_dedent : string -> string;
  textwrap_indent : string -> string -> string;
  send_email : MailCall -> py_result unit
}.

Definition nothing_found : string :=
  "Nenhum dos termos pesquisados foi encontrado.".

Definition nothing_found_in_search : string :=
  "Nenhum dos termos pesquisados foi encontrado nesta consulta.".

Definition skip_notification_result : string := "skip_notification".

(** [if v] for a mapping or a list. *)
Definition nonempty {A} (l : list A) : bool :=
  match l with [] => false | _ => true end.

Definition spaces (n : nat) : string := String.concat "" (repeat " " n).

(** The f-string [item_html] of [generate_email_content]. *)
Definition item_html (item : Match) : string :=
  nl ++ spaces 36 ++ "<p class=" ++ dq ++ "secao-marker" ++ dq ++ ">"
     ++ section item ++ "</p>"
  ++ nl ++ spaces 36 ++ "### [" ++ title item ++ "](" ++ href item ++ ")"
  ++ nl ++ spaces 36 ++ "<p class='abstract-marker'>" ++ abstract item
     ++ "</p>"
  ++ nl ++ spaces 36 ++ "<p class='date-marker'>" ++ date item ++ "</p>".

(** [repack_match] *)
Definition repack_match (header : option string) (group search_term : string)
  (m : Match) : list cell :=
  [header; Some group; Some search_term; Some (section m); Some (href m);
   Some (title m); Some (abstract m); Some (date m)].

(** [search["header"] if search["header"] else None] *)
Definition header_or_none (search : SearchBlock) : option string :=
  match header search with
  | Some h => if String.eqb h "" then None else Some h
  | None => None
  end.

Definition convert_report_dict_to_tuple_list (search_report : list SearchBlock)
  : list (list cell) :=
  flat_map (fun search =>
    flat_map (fun '(group, results) =>
      flat_map (fun '(term, matches) =>
        map (repack_match (header_or_none search) group term) matches)
        results)
      (result search))
    search_report.

Definition csv_columns : list string :=
  ["Consulta"; "Grupo"; "Termo de pesquisa"; "Seção"; "URL"; "Título";
   "Resumo"; "Data"].

(** The two flags computed by the loop of [convert_report_to_dataframe]. *)
Definition scan_flags (search_report : list SearchBlock) : bool * bool :=
  fold_left (fun '(del_header, del_single_group) search =>
               ((match header search with
                 | Some _ => false
                 | None => del_header
                 end),
                (if mem single_group (result search) then true
                 else del_single_group)))
            search_report (true, false).

Definition convert_report_to_dataframe (search_report : list SearchBlock)
  : py_result DataFrame :=
  let df := of_records (convert_report_dict_to_tuple_list search_report) in
  df <- set_columns df csv_columns ;;
  let '(del_header, del_single_group) := scan_flags search_report in
  df <- (if del_header then del_column df "Consulta" else Return df) ;;
  df <- (if del_single_group then del_column df "Grupo" else Return df) ;;
  Return df.

Definition get_csv_tempfile (search_report : list SearchBlock)
  : py_result TempFile :=
  df <- convert_report_to_dataframe search_report ;;
  Return {| prefix := "extracao_dou_"; suffix := ".csv"; written := df |}.

Section WithExternals.
Context {ext : Externals}.

(** The fragments one group of a block adds to [blocks]. *)
Definition group_fragments (group : string) (results : term_results)
  : list string :=
  if negb (nonempty results) then [nothing_found_in_search]
  else
    (if negb (String.eqb group single_group)
     then [nl; "**Grupo: " ++ group ++ "**"; nl ++ nl] else [])
    +++ flat_map (fun '(term, items) =>
         [nl; "* # Resultados para: " ++ term]
         +++ map (fun item =>
                   textwrap_indent (textwrap_dedent (item_html item))
                                   (spaces 4))
                items)
       results.

Definition block_fragments (search : SearchBlock) : list string :=
  (match header search with
   | Some h => if String.eqb h "" then [] else ["<h1>" ++ h ++ "</h1>"]
   | None => []
   end)
  +++ (match department search with
      | Some (d :: ds) =>
          ["<p class=" ++ dq ++ "secao-marker" ++ dq
             ++ ">Filtrando resultados somente para:</p>";
           "<ul>"]
          +++ map (fun dpt => "<li>" ++ dpt ++ "</li>") (d :: ds)
          +++ ["</ul>"]
      | _ => []
      end)
  +++ flat_map (fun '(group, results) => group_fragments group results)
       (result search)
  +++ ["---"].

(** The text handed to [markdown.markdown]. *)
Definition email_source (search_report : list SearchBlock) : string :=
  join nl (("<style>" ++ nl ++ report_style_css ++ "</style>")
           :: flat_map block_fragments search_report).

Definition generate_email_content (search_report : list SearchBlock)
  : string :=
  markdown (email_source search_report).

(** The first loop of [send]: the flag [skip_notification] and the local
    [content], which is unbound ([None]) until a block without a filled
    group is met. *)
Definition scan_step (st : bool * option string) (search : SearchBlock)
  : bool * option string :=
  let '(skip_notification, content) := st in
  let items := filter (fun kv => nonempty (snd kv)) (result search) in
  if nonempty items then (false, content)
  else (skip_notification, Some nothing_found).

Definition scan_report (search_report : list SearchBlock)
  : bool * option string :=
  fold_left scan_step search_report (true, None).

(** Reading the local [content]. *)
Definition read_content (content : option string) : py_result string :=
  match content with
  | Some c => Return c
  | None => Raise (UnboundLocalError "content")
  end.

(** A call of the mail sink: recorded in the outbox, its exception
    propagated. *)
Definition deliver (call : MailCall) (outbox : list MailCall)
  : py_result (option string) * list MailCall :=
  (_ <- send_email call ;; Return None, outbox +++ [call]).

(** [send]: the result is [Some "skip_notification"] or [None]; the outbox
    is the list of calls made to the mail sink. *)
Definition send (specs : Specs) (search_report : list SearchBlock)
  (report_date : string) (outbox : list MailCall)
  : py_result (option string) * list MailCall :=
  let full_subject := subject specs ++ " - DOs de " ++ report_date in
  let '(skip_notification, content) := scan_report search_report in
  if skip_notification && skip_null specs
  then (Return (Some skip_notification_result), outbox)
  else
    let content :=
      if skip_notification then content
      else Some (generate_email_content search_report) in
    if attach_csv specs && negb skip_notification then
      match get_csv_tempfile search_report with
      | Raise e => (Raise e, outbox)
      | Return csv_file =>
          match read_content content with
          | Raise e => (Raise e, outbox)
          | Return c =>
              deliver {| to := emails specs; mail_subject := full_subject;
                         files := [csv_file]; html_content := c;
                         mime_charset := "utf-8" |} outbox
          end
      end
    else
      match read_content content with
      | Raise e => (Raise e, outbox)
      | Return c =>
          deliver {| to := emails specs; mail_subject := full_subject;
                     files := []; html_content := c;
                     mime_charset := "utf-8" |} outbox
      end.

End WithExternals.

End EmailSender.

(** ** [src/notification/slack_sender.py] *)

Module SlackSender.

(** JSON-like payloads built from Python literals. *)
#[warnings="-register-all"]
Inductive json : Type :=
| JStr (s : string)
| JBool (b : bool)
| JArr (items : list json)
| JObj (members : list (string * json)).

(** One [requests.post(url, json=data)]. *)
Record Post : Type := {
  url : string;
  data : json
}.

(** The HTTP sink: the status code of the response to a post. *)
Class Externals : Type := {
  requests_post : Post -> Z
}.

(** The instance: [self.webhook_url] and [self.blocks]. *)
Record SlackSender : Type := {
  webhook_url : string;
  blocks : list json
}.

(** [__init__] *)
Definition init (specs : Specs) : SlackSender :=
  {| webhook_url := slack_webhook specs; blocks := [] |}.

Definition header_block (text : string) : json :=
  JObj [("type", JStr "header");
        ("text", JObj [("type", JStr "plain_text");
                       ("text", JStr text);
                       ("emoji", JBool true)])].

Definition _add_header (self : SlackSender) (text : string) : SlackSender :=
  {| webhook_url := webhook_url self;
     blocks := (blocks self ++ [header_block text])%list |}.

Definition title_block (item : Match) : json :=
  JObj [("type", JStr "section");
        ("text", JObj [("type", JStr "mrkdwn"); ("text", JStr (title item))])].

Definition abstract_block (item : Match) : json :=
  JObj [("type", JStr "section");
        ("text", JObj [("type", JStr "mrkdwn");
                       ("text", JStr (abstract item))])].

Definition date_block (item : Match) : json :=
  JObj [("type", JStr "section");
        ("text", JObj [("type", JStr "mrkdwn");
                       ("text", JStr "Publicado em: 15/03/2023")]);
        ("accessory",
         JObj [("type", JStr "button");
               ("text", JObj [("type", JStr "plain_text");
                              ("text", JStr "Acessar publicação");
                              ("emoji", JBool true)]);
               ("value", JStr "click_me_123");
               ("url", JStr (href item));
               ("action_id", JStr "button-action")])].

Definition divider_block : json := JObj [("type", JStr "divider")].

Definition _add_block (self : SlackSender) (item : Match) : SlackSender :=
  {| webhook_url := webhook_url self;
     blocks := (blocks self
                ++ [title_block item; abstract_block item; date_block item;
                    divider_block])%list |}.

Section WithExternals.
Context {ext : Externals}.

(** [Response.raise_for_status] *)
Definition raise_for_status (status : Z) : py_result unit :=
  if (400 <=? status)%Z && (status <? 600)%Z then Raise (HTTPError status)
  else Return tt.

(** [_flush]: the post is recorded in the log of the HTTP sink. *)
Definition _flush (self : SlackSender) (log : list Post)
  : py_result unit * SlackSender * list Post :=
  let data := JObj [("blocks", JArr (blocks self))] in
  let post := {| url := webhook_url self; data := data |} in
  (raise_for_status (requests_post post), self, (log ++ [post])%list).

(** The loop over the terms of one group. *)
Definition add_terms (self : SlackSender) (results : term_results)
  : SlackSender :=
  fold_left (fun self '(term, items) =>
               match items with
               | [] => self
               | _ => fold_left _add_block items
                        (_add_header self ("Termo: " ++ term))
               end)
            results self.

(** The loop over the groups. *)
Definition add_groups (self : SlackSender) (search_report : group_results)
  : SlackSender :=
  fold_left (fun self '(group, results) =>
               let self :=
                 if negb (String.eqb group single_group)
                 then _add_header self ("Grupo: " ++ group)
                 else self in
               add_terms self results)
            search_report self.

Definition send (self : SlackSender) (search_report : group_results)
  (report_date : option string) (log : list Post)
  : py_result unit * SlackSender * list Post :=
  _flush (add_groups self search_report) log.

End WithExternals.

(** *** The block sequence as the specification words it

    The blocks are written out here on their own, apart from the builders
    of the sender above, so that the comparison with [send] pins what each
    block holds. *)

(** A header block with the given label. *)
Definition labelled_header (label : string) : json :=
  JObj [("type", JStr "header");
        ("text", JObj [("type", JStr "plain_text");
                       ("text", JStr label);
                       ("emoji", JBool true)])].

(** A text block. *)
Definition text_section (text : string) : json :=
  JObj [("type", JStr "section");
        ("text", JObj [("type", JStr "mrkdwn"); ("text", JStr text)])].

(** The fixed publication-date caption, with the "open publication"
    action whose target is [target]. *)
Definition date_caption_with_action (target : string) : json :=
  JObj [("type", JStr "section");
        ("text", JObj [("type", JStr "mrkdwn");
                       ("text", JStr "Publicado em: 15/03/2023")]);
        ("accessory",
         JObj [("type", JStr "button");
               ("text", JObj [("type", JStr "plain_text");
                              ("text", JStr "Acessar publicação");
                              ("emoji", JBool true)]);
               ("value", JStr "click_me_123");
               ("url", JStr target);
               ("action_id", JStr "button-action")])].

Definition divider : json := JObj [("type", JStr "divider")].

(** Per match: title text, abstract text, date caption with the action on
    the match's href, then a divider. *)
Definition match_blocks_spec (m : Match) : list json :=
  [text_section (title m); text_section (abstract m);
   date_caption_with_action (href m); divider].

(** Per term: nothing without a match, else one header labelled with the
    term and the blocks of every match in list order. *)
Definition term_blocks_spec (term : string) (matches : list Match)
  : list json :=
  match matches with
  | [] => []
  | _ => labelled_header ("Termo: " ++ term)
         :: flat_map match_blocks_spec matches
  end.

(** Per group: a header labelled with the group unless the key is the
    sentinel, then the terms in map order. *)
Definition group_blocks_spec (group : string) (results : term_results)
  : list json :=
  ((if String.eqb group single_group then []
    else [labelled_header ("Grupo: " ++ group)])
   ++ flat_map (fun kv => term_blocks_spec (fst kv) (snd kv)) results)%list.

Definition render_blocks_spec (search_report : group_results) : list json :=
  flat_map (fun kv => group_blocks_spec (fst kv) (snd kv)) search_report.

(** The groups with a label, the terms with a match, and the matches of a
    report. *)
Definition named_groups (search_report : group_results) : nat :=
  List.length (filter (fun kv => negb (String.eqb (fst kv) single_group))
                 search_report).

Definition matched_terms (search_report : group_results) : nat :=
  List.length (filter (fun kv => match snd kv with [] => false | _ => true end)
                 (flat_map snd search_report)).

Definition all_matches (search_report : group_results) : nat :=
  List.length (flat_map snd (flat_map snd search_report)).

End SlackSender.

(** ** A concrete environment for worked examples *)

Module Examples.

(** Airflow's variable store as a mapping; a missing variable is a
    [KeyError], as [Variable.get] raises without a default. *)
Definition variable_store_get (vars : list (string * string))
  (name : pyvalue) : py_result string :=
  match name with
  | PyStr k =>
      match lookup k vars with
      | Some v => Return v
      | None => Raise (KeyError k)
      end
  | _ => Raise (KeyError "")
  end.

(** The parser's environment with the variable store [vars] and the
    literal reader of [Literal].  [textwrap.dedent] is taken on texts
    without a common margin, which it returns unchanged. *)
Definition parser_externals (vars : list (string * string))
  : Parsers.Externals :=
  {| Parsers.Variable_get := variable_store_get vars;
     Parsers.literal_eval := Literal.literal_eval;
     Parsers.textwrap_dedent :=
       fun v => match v with PyStr _ => Return v | _ => Raise TypeError end |}.

Definition a_parser : Parsers.YAMLParser :=
  {| Parsers.filepath := "/opt/airflow/dags/ro_dou/saude.yaml" |}.

(** [terms: {from_airflow_variable: termos_saude}] *)
Definition search_from_variable : pyvalue :=
  PyDict [("header", PyStr "Saude");
          ("terms", PyDict [("from_airflow_variable", PyStr "termos_saude")])].

(** The text ["a","b"] *)
Definition text_list_ab : string :=
  "[" ++ dq ++ "a" ++ dq ++ "," ++ dq ++ "b" ++ dq ++ "]".

(** The two lines a, b *)
Definition text_lines_ab : string := "a" ++ nl ++ "b".

(** A mapping of term groups, as a Python literal. *)
Definition text_groups : string := "{'saude': ['vacina', 'sus']}".

(** [terms: {from_db_select: {sql: ..., conn_id: c}}] *)
Definition search_from_db : pyvalue :=
  PyDict [("terms",
           PyDict [("from_db_select",
                    PyDict [("sql", PyStr "SELECT termo FROM termos");
                            ("conn_id", PyStr "c")])])].

(** A mapping with both indirection keys. *)
Definition search_both_keys : pyvalue :=
  PyDict [("terms",
           PyDict [("from_airflow_variable", PyStr "termos_saude");
                   ("from_db_select",
                    PyDict [("sql", PyStr "SELECT termo FROM termos");
                            ("conn_id", PyStr "c")])])].

(** [terms: {from_file: termos.txt}], neither indirection key. *)
Definition search_bad_shape : pyvalue :=
  PyDict [("terms", PyDict [("from_file", PyStr "termos.txt")])].

Definition document (search : pyvalue) : pyvalue :=
  PyDict [("dag",
           PyDict [("id", PyStr "saude");
                   ("description", PyStr "Termos de saude");
                   ("search", search);
                   ("report", PyDict [("emails",
                                       PyList [PyStr "a@example.org"])])])].

(** A document whose [dag] mapping has no [id]. *)
Definition document_without_id : pyvalue :=
  PyDict [("dag",
           PyDict [("description", PyStr "Termos de saude");
                   ("search", search_from_db);
                   ("report", PyDict [])])].

(** *** Reports and senders *)

Definition a_match : Match :=
  {| section := "DOU - Seção 1";
     href := "https://www.in.gov.br/web/dou/-/portaria-1";
     title := "PORTARIA N. 1";
     abstract := "Dispõe sobre a vacina";
     date := "02/01/2024" |}.

Definition another_match : Match :=
  {| section := "DOU - Seção 2";
     href := "https://www.in.gov.br/web/dou/-/portaria-2";
     title := "PORTARIA N. 2";
     abstract := "Designa servidor";
     date := "02/01/2024" |}.

(** A block whose only term has an empty match list. *)
Definition report_term_without_match : list SearchBlock :=
  [{| header := None; department := None;
      result := [("single_group", [("dengue", [])])] |}].

(** A block whose only group has no term at all. *)
Definition report_group_without_term : list SearchBlock :=
  [{| header := Some "Saude"; department := None;
      result := [("single_group", [])] |}].

(** Two blocks, one with a header and one without, with matches. *)
Definition report_two_blocks : list SearchBlock :=
  [{| header := Some "Saude"; department := None;
      result := [("single_group", [("vacina", [a_match])])] |};
   {| header := None; department := None;
      result := [("pessoal", [("servidor", [another_match])])] |}].

Definition specs_of (attach skip : bool) : Specs :=
  {| subject := "Extraçao do DOU"; emails := ["a@example.org"];
     attach_csv := attach; skip_null := skip;
     slack_webhook := "https://hooks.slack.com/services/T0/B0/x" |}.

(** A mail sink that accepts every message.  The text functions stand for
    the library ones: no result below depends on what they return. *)
Definition email_externals : EmailSender.Externals :=
  {| EmailSender.report_style_css := "";
     EmailSender.markdown := fun src => "<p>" ++ src ++ "</p>";
     EmailSender.textwrap_dedent := fun text => text;
     EmailSender.textwrap_indent := fun text pre => pre ++ text;
     EmailSender.send_email := fun _ => Return tt |}.

(** An HTTP sink answering 200 to every post. *)
Definition slack_externals : SlackSender.Externals :=
  {| SlackSender.requests_post := fun _ => 200%Z |}.

Definition chat_report_1 : group_results :=
  [("single_group", [("vacina", [a_match])])].

Definition chat_report_2 : group_results :=
  [("single_group", [("servidor", [another_match])])].

(** Two terms under the sentinel, and a named group with a term without
    match. *)
Definition chat_report_3 : group_results :=
  [("single_group", [("vacina", [a_match; another_match]);
                     ("servidor", [another_match])]);
   ("pessoal", [("dengue", [])])].

End Examples.

(** ** The properties under study, as predicates *)

Module Stated.
Import EmailSender.

(** Every match list of every term of every group of every block is
    empty. *)
Definition all_match_lists_empty (search_report : list SearchBlock) : bool :=
  forallb (fun search =>
    forallb (fun group =>
      forallb (fun term => negb (nonempty (snd term))) (snd group))
      (result search))
    search_report.

(** Every group of every block has no term entry at all. *)
Definition all_groups_empty (search_report : list SearchBlock) : bool :=
  forallb (fun search =>
    forallb (fun group => negb (nonempty (snd group))) (result search))
    search_report.

(** [sub] occurs in [s]. *)
Definition occurs_in (sub s : string) : Prop :=
  exists before after, s = before ++ sub ++ after.

(** The terms of a successful resolution. *)
Definition resolved_terms (r : py_result (pyvalue * pyvalue * pyvalue))
  : option pyvalue :=
  match r with
  | Return (terms, _, _) => Some terms
  | Raise _ => None
  end.

(** Suppression as the specification words it: emptiness of the match
    lists. *)
Definition skip_when_no_match : Prop :=
  forall (ext : Externals) specs search_report report_date outbox,
    all_match_lists_empty search_report = true ->
    skip_null specs = true ->
    send specs search_report report_date outbox
    = (Return (Some skip_notification_result), outbox).

(** The fixed message as the specification words it. *)
Definition fixed_message_when_no_match : Prop :=
  forall (ext : Externals) specs search_report report_date outbox,
    all_match_lists_empty search_report = true ->
    skip_null specs = false ->
    exists call,
      send specs search_report report_date outbox = deliver call outbox
      /\ html_content call = nothing_found.

(** Resolution through an Airflow variable as the specification words it:
    a literal list, or else the lines of the text. *)
Definition variable_is_list_or_lines : Prop :=
  forall vars self search m X s,
    lookup "terms" search = Some (PyDict m) ->
    lookup "from_airflow_variable" m = Some (PyStr X) ->
    lookup X vars = Some s ->
    let r := @Parsers._get_terms_params (Examples.parser_externals vars)
               self (PyDict search) in
    (forall l, Literal.literal_eval s = Return (PyList l) ->
               resolved_terms r = Some (PyList l))
    /\ ((forall l, Literal.literal_eval s <> Return (PyList l)) ->
        resolved_terms r = Some (PyList (map PyStr (splitlines s)))).

(** Resolution through a query as the specification words it: whenever the
    key [from_db_select] is there. *)
Definition db_select_whenever_key_present : Prop :=
  forall vars self search m v,
    lookup "terms" search = Some (PyDict m) ->
    lookup "from_db_select" m = Some v ->
    match @Parsers._get_terms_params (Examples.parser_externals vars)
            self (PyDict search) with
    | Return (terms, sql, conn_id) =>
        terms = PyList [] /\ subscript v "sql" = Return sql
        /\ subscript v "conn_id" = Return conn_id
    | Raise e =>
        (exists msg, e = ValueError msg)
        /\ (subscript v "sql" = Raise (KeyError "sql")
            \/ subscript v "conn_id" = Raise (KeyError "conn_id"))
    end.

(** The messages [parse] can raise as [ValueError]: the required-field
    message with the file name, the fixed message on the shape of [terms],
    or what one of the outside functions raised. *)
Definition known_message (ext : Parsers.Externals) (self : Parsers.YAMLParser)
  (msg : string) : Prop :=
  (exists field,
      msg = "Erro no arquivo " ++ last_component (Parsers.filepath self)
            ++ ": O campo `" ++ field ++ "` é obrigatório.")
  \/ msg = Parsers.terms_shape_msg
  \/ (exists name, Parsers.Variable_get name = Raise (ValueError msg))
  \/ (exists v, Parsers.textwrap_dedent v = Raise (ValueError msg)).

Definition known_error (ext : Parsers.Externals) (self : Parsers.YAMLParser)
  (e : exn) : Prop :=
  match e with
  | ValueError msg => known_message ext self msg
  | _ => True
  end.

(** A computation whose [ValueError]s all carry a known message. *)
Definition safe (ext : Parsers.Externals) (self : Parsers.YAMLParser)
  {A} (c : py_result A) : Prop :=
  forall e, c = Raise e -> known_error ext self e.

End Stated.

(** ** Measures and predicates for the further properties *)

Module Measures.

(** A line of ASCII text without any line boundary. *)
Definition plain_line (s : string) : bool :=
  forallb (fun a => Nat.ltb (nat_of_ascii a) 128 && negb (is_line_break1 a))
          (list_ascii_of_string s).

(** The first key of [keys] that the mapping lacks. *)
Definition first_missing {V} (keys : list string) (m : list (string * V))
  : option string :=
  find (fun k => negb (mem k m)) keys.

(** The value under a key, or a default: what [m.get(k, d)] returns. *)
Definition field_or {V} (m : list (string * V)) (k : string) (d : V) : V :=
  match lookup k m with Some v => v | None => d end.

(** The matches of a report, over all its blocks, groups and terms. *)
Definition total_matches (search_report : list SearchBlock) : nat :=
  List.length
    (flat_map (fun search =>
                 flat_map (fun group => flat_map snd (snd group))
                          (result search))
              search_report).

(** A chat report all of whose groups are unlabelled and all of whose
    terms are without match. *)
Definition silent (search_report : group_results) : bool :=
  forallb (fun group =>
             String.eqb (fst group) single_group
             && forallb (fun term => match snd term with
                                     | [] => true
                                     | _ => false
                                     end) (snd group))
          search_report.

(** The number of columns the export keeps. *)
Definition kept_columns (search_report : list SearchBlock) : nat :=
  8 - (if forallb (fun b => match header b with
                            | None => true
                            | Some _ => false
                            end) search_report then 1 else 0)
    - (if existsb (fun b => mem single_group (result b)) search_report
       then 1 else 0).

End Measures.

(** ** Checks of the helpers on small inputs *)

Example ex_utf8 : String.length "é" = 2.
Proof. reflexivity. Qed.
Example ex_split : split "/" "/opt/dags/a.yaml" = [""; "opt"; "dags"; "a.yaml"].
Proof. reflexivity. Qed.
Example ex_sl1 : splitlines ("a" ++ nl ++ "b") = ["a"; "b"].
Proof. reflexivity. Qed.
Example ex_sl2 : splitlines ("a" ++ nl) = ["a"].
Proof. reflexivity. Qed.
Example ex_sl3 : splitlines (nl ++ chr CR ++ nl ++ "b" ++ chr CR) = [""; ""; "b"].
Proof. reflexivity. Qed.
Example ex_sl4 : splitlines "" = [].
Proof. reflexivity. Qed.
Example ex_code_points : code_points "aéb" = ["a"; "é"; "b"].
Proof. reflexivity. Qed.
Example ex_join_str : py_join ", " (PyStr "abc") = Return "a, b, c".
Proof. reflexivity. Qed.
Example ex_lit_list :
  Literal.literal_eval ("[" ++ dq ++ "a" ++ dq ++ "," ++ dq ++ "b" ++ dq ++ "]")
  = Return (PyList [PyStr "a"; PyStr "b"]).
Proof. reflexivity. Qed.
Example ex_lit_lines : Literal.literal_eval ("a" ++ nl ++ "b") = Raise SyntaxError.
Proof. reflexivity. Qed.
Example ex_lit_multiline :
  Literal.literal_eval ("['a'," ++ nl ++ " 'b']" ++ nl)
  = Return (PyList [PyStr "a"; PyStr "b"]).
Proof. reflexivity. Qed.
Example ex_lit_int : Literal.literal_eval "42" = Return (PyInt 42).
Proof. reflexivity. Qed.
Example ex_lit_dict :
  Literal.literal_eval "{'saude': ['vacina', 'sus'], 'ti': ['dados abertos']}"
  = Return (PyDict [("saude", PyList [PyStr "vacina"; PyStr "sus"]);
                    ("ti", PyList [PyStr "dados abertos"])]).
Proof. reflexivity. Qed.

(** A report with two blocks, one with a header: the column [Consulta]
    stays; the first block uses the sentinel: the column [Grupo] goes. *)
Example csv_two_blocks :
  match EmailSender.convert_report_to_dataframe Examples.report_two_blocks with
  | Return df =>
      Pandas.columns df
      = map Pandas.Name ["Consulta"; "Termo de pesquisa"; "Seção"; "URL";
                         "Título"; "Resumo"; "Data"]
      /\ map (hd None) (Pandas.rows df) = [Some "Saude"; None]
  | Raise _ => False
  end.
Proof. split; reflexivity. Qed.

(** Without any match row the column names cannot be assigned. *)
Example csv_without_rows :
  EmailSender.convert_report_to_dataframe Examples.report_term_without_match
  = Raise (ValueError ("Length mismatch: Expected axis has 0 elements, "
                       ++ "new values have 8 elements")).
Proof. reflexivity. Qed.

(** Two terms under the sentinel: no group header, one term header per
    term, four blocks per match; a named group gets its header. *)
Example chat_two_terms :
  SlackSender.render_blocks_spec Examples.chat_report_3
  = [SlackSender.header_block "Termo: vacina";
     SlackSender.title_block Examples.a_match;
     SlackSender.abstract_block Examples.a_match;
     SlackSender.date_block Examples.a_match;
     SlackSender.divider_block;
     SlackSender.title_block Examples.another_match;
     SlackSender.abstract_block Examples.another_match;
     SlackSender.date_block Examples.another_match;
     SlackSender.divider_block;
     SlackSender.header_block "Termo: servidor";
     SlackSender.title_block Examples.another_match;
     SlackSender.abstract_block Examples.another_match;
     SlackSender.date_block Examples.another_match;
     SlackSender.divider_block;
     SlackSender.header_block "Grupo: pessoal"].
Proof. reflexivity. Qed.

Example parse_normalises_single_search :
  @Parsers.parse (Examples.parser_externals []) Examples.a_parser
     (Examples.document Examples.search_from_db)
  = @Parsers.parse (Examples.parser_externals []) Examples.a_parser
     (Examples.document (PyList [Examples.search_from_db])).
Proof. reflexivity. Qed.

(** ** Properties of the configuration parser *)

Module ParserProps.
Import Parsers Examples Stated.

Lemma occurs_in_middle (a sub b : string) : occurs_in sub (a ++ sub ++ b).
Proof. exists a, b. reflexivity. Qed.

Lemma append_assoc (a b c : string) : (a ++ b) ++ c = a ++ b ++ c.
Proof. induction a as [|x a IH]; simpl; [reflexivity | now rewrite IH]. Qed.

Lemma prefix_append (sub rest : string) : String.prefix sub (sub ++ rest) = true.
Proof.
  induction sub as [|x sub IH]; simpl.
  - now destruct rest.
  - destruct (ascii_dec x x) as [_|ne]; [exact IH | now elim ne].
Qed.

Lemma contains_unfold (s sub : string) :
  contains s sub
  = String.prefix sub s
    || match s with
       | EmptyString => false
       | String _ s' => contains s' sub
       end.
Proof. destruct s; reflexivity. Qed.

(** [contains] finds every occurrence. *)
Lemma contains_complete (s sub : string) :
  occurs_in sub s -> contains s sub = true.
Proof.
  intros (before & after & ->).
  induction before as [|x before IH].
  - rewrite contains_unfold.
    change ("" ++ sub ++ after) with (sub ++ after).
    now rewrite prefix_append.
  - change ((String x before) ++ sub ++ after)
      with (String x (before ++ sub ++ after)).
    rewrite contains_unfold, IH. apply orb_true_r.
Qed.

Lemma not_contained (s sub : string) :
  contains s sub = false -> ~ occurs_in sub s.
Proof.
  intros H Hocc. apply contains_complete in Hocc. congruence.
Qed.

(** *** The file name of a path *)

Lemma split_not_nil (c : ascii) (s : string) : split c s <> [].
Proof.
  destruct s as [|a s]; cbn; [discriminate|].
  destruct (Ascii.eqb a c); [discriminate|].
  destruct (split c s); discriminate.
Qed.

(** A text without the separator is its only piece. *)
Lemma split_without_separator (c : ascii) (s : string) :
  forallb (fun a => negb (Ascii.eqb a c)) (list_ascii_of_string s) = true ->
  split c s = [s].
Proof.
  induction s as [|a s IH]; cbn; [reflexivity|].
  intros H. apply andb_prop in H as [Ha Hs].
  apply negb_true_iff in Ha. rewrite Ha, (IH Hs). reflexivity.
Qed.

(** A text with a separator has at least two pieces. *)
Lemma split_two_pieces (c : ascii) (before after : string) :
  exists p q qs, split c (before ++ String c after) = p :: q :: qs.
Proof.
  induction before as [|a before (p & q & qs & IH)].
  - cbn. rewrite Ascii.eqb_refl.
    destruct (split c after) as [|q qs] eqn:E.
    + now elim (split_not_nil c after).
    + now exists "", q, qs.
  - change (String a before ++ String c after)
      with (String a (before ++ String c after)).
    cbn [split]. rewrite IH.
    destruct (Ascii.eqb a c); eauto.
Qed.

(** [last_component] of [dir/name] is [name] when [name] has no slash. *)
Lemma last_component_of_path (dir name : string) :
  forallb (fun a => negb (Ascii.eqb a "/")) (list_ascii_of_string name) = true ->
  last_component (dir ++ "/" ++ name) = name.
Proof.
  intros Hname. unfold last_component.
  change ("/" ++ name) with (String "/" name).
  induction dir as [|a dir IH].
  - cbn. now rewrite (split_without_separator _ _ Hname).
  - change (String a dir ++ String "/" name)
      with (String a (dir ++ String "/" name)).
    cbn [split].
    destruct (split_two_pieces "/" dir name) as (p & q & qs & E).
    rewrite E in IH |- *.
    destruct (Ascii.eqb a "/"); exact IH.
Qed.

(** *** The required-field accessor *)

(** [_try_get] returns the value under a key that is there. *)
Lemma try_get_present self m field msg v :
  lookup field m = Some v -> _try_get self (PyDict m) field msg = Return v.
Proof. intros H. unfold _try_get, subscript. now rewrite H. Qed.

(** [_try_get] reports a missing key with the file name and the field. *)
Lemma try_get_absent self m field :
  lookup field m = None ->
  _try_get self (PyDict m) field None
  = Raise (ValueError ("Erro no arquivo " ++ last_component (filepath self)
                       ++ ": O campo `" ++ field ++ "` é obrigatório.")).
Proof. intros H. unfold _try_get, subscript. now rewrite H. Qed.

(** Every [ValueError] of the required-field accessor carries the file
    name and the field name. *)
Lemma try_get_error_names_file_and_field self variable field msg :
  _try_get self variable field None = Raise (ValueError msg) ->
  occurs_in (last_component (filepath self)) msg /\ occurs_in field msg.
Proof.
  unfold _try_get, subscript.
  destruct variable as [| | | | |m]; try discriminate.
  destruct (lookup field m); [discriminate|].
  intros [= <-]. unfold file_error, mandatory_msg. split.
  - apply occurs_in_middle.
  - exists ("Erro no arquivo " ++ last_component (filepath self)
            ++ ": O campo `"), "` é obrigatório.".
    now rewrite !append_assoc.
Qed.

(** C6.  A document whose [dag] mapping has no key [id] makes [parse] fail
    with the [ValueError] whose message is "Erro no arquivo {file name}: O
    campo `id` é obrigatório."; no configuration is returned. *)
Theorem C6_missing_dag_id (ext : Externals) self doc dag :
  lookup "dag" doc = Some (PyDict dag) ->
  lookup "id" dag = None ->
  parse self (PyDict doc)
  = Raise (ValueError ("Erro no arquivo " ++ last_component (filepath self)
                       ++ ": O campo `id` é obrigatório.")).
Proof.
  intros Hdag Hid. unfold parse, _parse_yaml.
  rewrite (try_get_present _ _ _ _ _ Hdag). cbn [bind].
  rewrite (try_get_absent _ _ _ Hid). reflexivity.
Qed.

Lemma C6_missing_dag_id_witness :
  document_without_id
  = PyDict [("dag", PyDict [("description", PyStr "Termos de saude");
                            ("search", search_from_db);
                            ("report", PyDict [])])]
  /\ @parse (parser_externals []) a_parser document_without_id
     = Raise (ValueError
                "Erro no arquivo saude.yaml: O campo `id` é obrigatório.").
Proof.
  split; [reflexivity|].
  exact (C6_missing_dag_id (parser_externals []) a_parser
           [("dag", PyDict [("description", PyStr "Termos de saude");
                            ("search", search_from_db);
                            ("report", PyDict [])])]
           [("description", PyStr "Termos de saude");
            ("search", search_from_db);
            ("report", PyDict [])]
           eq_refl eq_refl).
Defined.

(** *** Resolution of [terms] *)

(** A literal list of terms is used as it is. *)
Lemma terms_literal_list (ext : Externals) self search l :
  lookup "terms" search = Some (PyList l) ->
  _get_terms_params self (PyDict search) = Return (PyList l, PyNone, PyNone).
Proof.
  intros H. unfold _get_terms_params.
  now rewrite (try_get_present _ _ _ _ _ H).
Qed.

(** C2, amended.  With [terms] a mapping holding [from_airflow_variable],
    resolution calls the lookup on the name; a failure of the lookup is
    the failure of the resolution; when the text parses as a Python literal
    the resolved terms are the parsed value, whatever its type; when
    parsing fails with [ValueError] or [SyntaxError] they are the lines of
    the text. *)
Theorem C2_terms_from_airflow_variable (ext : Externals) self search m name :
  lookup "terms" search = Some (PyDict m) ->
  lookup "from_airflow_variable" m = Some name ->
  match Variable_get name with
  | Raise e => _get_terms_params self (PyDict search) = Raise e
  | Return s =>
      (forall v, literal_eval s = Return v ->
         _get_terms_params self (PyDict search) = Return (v, PyNone, PyNone))
      /\ (forall e, literal_eval s = Raise e ->
           e = SyntaxError \/ (exists msg, e = ValueError msg) ->
           _get_terms_params self (PyDict search)
           = Return (PyList (map PyStr (splitlines s)), PyNone, PyNone))
  end.
Proof.
  intros Hterms Hvar. unfold _get_terms_params.
  rewrite (try_get_present _ _ _ _ _ Hterms). cbn [bind]. rewrite Hvar.
  destruct (Variable_get name) as [s|e]; cbn [bind]; [|reflexivity].
  split.
  - intros v ->. reflexivity.
  - intros e -> [-> | [msg ->]]; reflexivity.
Qed.

Lemma C2_terms_from_airflow_variable_witness :
  @_get_terms_params (parser_externals [("termos_saude", text_list_ab)])
     a_parser search_from_variable
  = Return (PyList [PyStr "a"; PyStr "b"], PyNone, PyNone)
  /\ @_get_terms_params (parser_externals [("termos_saude", text_lines_ab)])
       a_parser search_from_variable
     = Return (PyList [PyStr "a"; PyStr "b"], PyNone, PyNone).
Proof.
  split.
  - exact (proj1
      (C2_terms_from_airflow_variable
         (parser_externals [("termos_saude", text_list_ab)]) a_parser
         [("header", PyStr "Saude");
          ("terms", PyDict [("from_airflow_variable", PyStr "termos_saude")])]
         [("from_airflow_variable", PyStr "termos_saude")]
         (PyStr "termos_saude") eq_refl eq_refl)
      (PyList [PyStr "a"; PyStr "b"]) eq_refl).
  - exact (proj2
      (C2_terms_from_airflow_variable
         (parser_externals [("termos_saude", text_lines_ab)]) a_parser
         [("header", PyStr "Saude");
          ("terms", PyDict [("from_airflow_variable", PyStr "termos_saude")])]
         [("from_airflow_variable", PyStr "termos_saude")]
         (PyStr "termos_saude") eq_refl eq_refl)
      SyntaxError eq_refl (or_introl eq_refl)).
Defined.

(** C2 as stated fails: a text that parses as a literal which is not a
    list (here a mapping of term groups) is kept as parsed, not split into
    lines. *)
Lemma C2_counterexample : ~ variable_is_list_or_lines.
Proof.
  intros H.
  destruct (H [("termos_saude", text_groups)] a_parser
              [("header", PyStr "Saude");
               ("terms",
                PyDict [("from_airflow_variable", PyStr "termos_saude")])]
              [("from_airflow_variable", PyStr "termos_saude")]
              "termos_saude" text_groups eq_refl eq_refl eq_refl)
    as [_ Hlines].
  assert (Hno : forall l, Literal.literal_eval text_groups <> Return (PyList l))
    by (intros l; vm_compute; discriminate).
  specialize (Hlines Hno). vm_compute in Hlines. discriminate.
Qed.

(** C7, amended.  With [terms] a mapping holding [from_db_select] and not
    [from_airflow_variable], and the value under [from_db_select] a
    mapping: the resolved terms are the empty list with the [sql] and
    [conn_id] found there; when one of the two is absent the resolution
    fails with the required-field error naming it ([sql] first). *)
Theorem C7_terms_from_db_select (ext : Externals) self search m from_db_select :
  lookup "terms" search = Some (PyDict m) ->
  lookup "from_airflow_variable" m = None ->
  lookup "from_db_select" m = Some (PyDict from_db_select) ->
  _get_terms_params self (PyDict search)
  = match lookup "sql" from_db_select, lookup "conn_id" from_db_select with
    | Some sql, Some conn_id => Return (PyList [], sql, conn_id)
    | None, _ =>
        Raise (ValueError ("Erro no arquivo " ++ last_component (filepath self)
                           ++ ": O campo `sql` é obrigatório."))
    | Some _, None =>
        Raise (ValueError ("Erro no arquivo " ++ last_component (filepath self)
                           ++ ": O campo `conn_id` é obrigatório."))
    end.
Proof.
  intros Hterms Hvar Hdb. unfold _get_terms_params.
  rewrite (try_get_present _ _ _ _ _ Hterms). cbn [bind]. rewrite Hvar, Hdb.
  destruct (lookup "sql" from_db_select) as [sql|] eqn:Hsql.
  - rewrite (try_get_present _ _ _ _ _ Hsql). cbn [bind].
    destruct (lookup "conn_id" from_db_select) as [conn|] eqn:Hconn.
    + now rewrite (try_get_present _ _ _ _ _ Hconn).
    + now rewrite (try_get_absent _ _ _ Hconn).
  - now rewrite (try_get_absent _ _ _ Hsql).
Qed.

Lemma C7_terms_from_db_select_witness :
  @_get_terms_params (parser_externals []) a_parser search_from_db
  = Return (PyList [], PyStr "SELECT termo FROM termos", PyStr "c").
Proof.
  exact (C7_terms_from_db_select (parser_externals []) a_parser
           [("terms",
             PyDict [("from_db_select",
                      PyDict [("sql", PyStr "SELECT termo FROM termos");
                              ("conn_id", PyStr "c")])])]
           [("from_db_select",
             PyDict [("sql", PyStr "SELECT termo FROM termos");
                     ("conn_id", PyStr "c")])]
           [("sql", PyStr "SELECT termo FROM termos"); ("conn_id", PyStr "c")]
           eq_refl eq_refl eq_refl).
Defined.

(** C7 as stated fails: a mapping that also holds [from_airflow_variable]
    is resolved through the variable, and its terms are not empty. *)
Lemma C7_counterexample : ~ db_select_whenever_key_present.
Proof.
  intros H.
  pose proof (H [("termos_saude", text_list_ab)] a_parser
                [("terms",
                  PyDict [("from_airflow_variable", PyStr "termos_saude");
                          ("from_db_select",
                           PyDict [("sql", PyStr "SELECT termo FROM termos");
                                   ("conn_id", PyStr "c")])])]
                [("from_airflow_variable", PyStr "termos_saude");
                 ("from_db_select",
                  PyDict [("sql", PyStr "SELECT termo FROM termos");
                          ("conn_id", PyStr "c")])]
                (PyDict [("sql", PyStr "SELECT termo FROM termos");
                         ("conn_id", PyStr "c")])
                eq_refl eq_refl) as Hc.
  vm_compute in Hc. destruct Hc as [Hc _]. discriminate.
Qed.

(** A mapping with neither key: the fixed message, whatever the file. *)
Lemma terms_invalid_shape (ext : Externals) self search m :
  lookup "terms" search = Some (PyDict m) ->
  lookup "from_airflow_variable" m = None ->
  lookup "from_db_select" m = None ->
  _get_terms_params self (PyDict search) = Raise (ValueError terms_shape_msg).
Proof.
  intros Hterms Hvar Hdb. unfold _get_terms_params.
  rewrite (try_get_present _ _ _ _ _ Hterms). cbn [bind].
  now rewrite Hvar, Hdb.
Qed.

(** C3, at the failing input.  For the file [saude.yaml] and a search whose
    [terms] is the mapping [{from_file: termos.txt}], [parse] raises the
    [ValueError] with the fixed message on the shape of [terms]: it names
    the field and not the file. *)
Theorem C3_invalid_shape_error_without_file_name (ext : Externals) :
  parse a_parser (document search_bad_shape)
  = Raise (ValueError terms_shape_msg)
  /\ last_component (filepath a_parser) = "saude.yaml"
  /\ ~ occurs_in "saude.yaml" terms_shape_msg
  /\ occurs_in "terms" terms_shape_msg.
Proof.
  split; [reflexivity|]. split; [reflexivity|]. split.
  - apply not_contained. vm_compute. reflexivity.
  - exists "O campo `",
      ("` aceita como valores válidos uma lista de strings ou parâmetros "
       ++ "do tipo `from_airflow_variable` ou `from_db_select`.").
    reflexivity.
Qed.

(** *** Where the [ValueError]s of [parse] come from *)

Section ValueErrors.
Context {ext : Externals} (self : YAMLParser).

Local Abbreviation safe := (Stated.safe ext self).

Lemma safe_return {A} (a : A) : safe (Return a).
Proof. intros e [=]. Qed.

Lemma safe_bind {A B} (c : py_result A) (k : A -> py_result B) :
  safe c -> (forall a, safe (k a)) -> safe (bind c k).
Proof.
  intros Hc Hk e. destruct c as [a|e']; cbn [bind].
  - apply Hk.
  - intros [= <-]. now apply Hc.
Qed.

Lemma safe_for_each {A B} (f : A -> py_result B) (xs : list A) :
  (forall x, safe (f x)) -> safe (for_each f xs).
Proof.
  intros Hf. induction xs as [|x xs IH]; cbn [for_each].
  - apply safe_return.
  - apply safe_bind; [apply Hf|]. intros y.
    apply safe_bind; [exact IH|]. intros ys. apply safe_return.
Qed.

Lemma safe_get v k d : safe (get v k d).
Proof.
  intros e. destruct v as [| | | | |m]; cbn [get]; try (intros [= <-]; exact I).
  destruct (lookup k m); intros [=].
Qed.

Lemma safe_subscript v k : safe (subscript v k).
Proof.
  intros e. destruct v as [| | | | |m]; cbn [subscript];
    try (intros [= <-]; exact I).
  destruct (lookup k m); intros [= <-]. exact I.
Qed.

Lemma safe_try_get v k : safe (_try_get self v k None).
Proof.
  intros e. unfold _try_get, subscript.
  destruct v as [| | | | |m]; try (intros [= <-]; exact I).
  destruct (lookup k m); intros [= <-]. left. now exists k.
Qed.

Lemma safe_py_join sep v : safe (py_join sep v).
Proof.
  intros e. destruct v as [| | | s | l |m]; cbn [py_join];
    try (intros [= <-]; exact I).
  destruct (all_str l); intros [= <-]. exact I.
Qed.

Lemma safe_append l x : safe (append l x).
Proof.
  intros e. destruct l; cbn [append]; intros [= <-]; exact I.
Qed.

Lemma safe_set_of_list acc l : safe (set_of_list acc l).
Proof.
  revert acc. induction l as [|x l IH]; intros acc e; cbn [set_of_list].
  - intros [=].
  - destruct (hashable x); [apply IH | intros [= <-]; exact I].
Qed.

Lemma safe_py_set v : safe (py_set v).
Proof.
  destruct v; cbn [py_set]; try (intros e [= <-]; exact I).
  apply safe_set_of_list.
Qed.

Lemma safe_webhook_of report key : safe (webhook_of report key).
Proof.
  unfold webhook_of. apply safe_bind; [apply safe_get|]. intros present.
  destruct (truthy present); [|apply safe_return].
  apply safe_bind; [apply safe_subscript|]. intros sink. apply safe_subscript.
Qed.

Lemma safe_get_terms_params search : safe (_get_terms_params self search).
Proof.
  unfold _get_terms_params. apply safe_bind; [apply safe_try_get|].
  intros terms. destruct terms as [| | | | |m]; try apply safe_return.
  destruct (lookup "from_airflow_variable" m) as [name|].
  - intros e. destruct (Variable_get name) as [s|e'] eqn:Hget; cbn [bind].
    + destruct (literal_eval s) as [v|[]]; intros [= <-]; exact I.
    + intros [= <-]. destruct e'; try exact I.
      right; right; left. now exists name.
  - destruct (lookup "from_db_select" m) as [fds|].
    + apply safe_bind; [apply safe_try_get|]. intros sql.
      apply safe_bind; [apply safe_try_get|]. intros conn.
      apply safe_return.
    + intros e [= <-]. right; left. reflexivity.
Qed.

Create HintDb safe_db.
#[local] Hint Resolve safe_return safe_get safe_try_get safe_subscript
  safe_py_join safe_append safe_py_set safe_webhook_of
  safe_get_terms_params : safe_db.

Lemma safe_parse_subsearch subsearch : safe (parse_subsearch self subsearch).
Proof.
  unfold parse_subsearch.
  apply safe_bind; [apply safe_get|]. intros header.
  apply safe_bind; [apply safe_get|]. intros sources.
  apply safe_bind; [apply safe_get_terms_params|]. intros [[terms sql] conn].
  repeat (apply safe_bind; [auto with safe_db | intros ?]).
  apply safe_return.
Qed.

(** Every [ValueError] raised by [parse] carries the required-field message
    with the file name and the field name, or the fixed message on the
    shape of [terms], or comes from the variable store or from
    [textwrap.dedent]. *)
Lemma parse_value_errors doc msg :
  parse self doc = Raise (ValueError msg) -> known_message ext self msg.
Proof.
  intros H.
  enough (Hs : safe (parse self doc)) by exact (Hs _ H).
  clear H. unfold parse, _parse_yaml.
  apply safe_bind; [apply safe_try_get|]. intros dag.
  apply safe_bind; [apply safe_try_get|]. intros dag_id.
  apply safe_bind; [apply safe_try_get|]. intros description.
  apply safe_bind; [apply safe_try_get|]. intros report.
  apply safe_bind; [apply safe_try_get|]. intros search.
  apply safe_bind; [apply safe_for_each, safe_parse_subsearch|].
  intros proc_search.
  apply safe_bind; [apply safe_get|]. intros owner_list.
  apply safe_bind; [apply safe_py_join|]. intros owner.
  apply safe_bind; [apply safe_webhook_of|]. intros discord.
  apply safe_bind; [apply safe_webhook_of|]. intros slack.
  apply safe_bind; [apply safe_get|]. intros schedule.
  apply safe_bind; [apply safe_get|]. intros dataset.
  apply safe_bind; [apply safe_get|]. intros doc_md.
  apply safe_bind.
  { destruct (truthy doc_md); [|apply safe_return].
    intros e He. destruct e; try exact I.
    right; right; right. now exists doc_md. }
  intros doc_md'.
  repeat (apply safe_bind; [auto with safe_db | intros ?]).
  apply safe_return.
Qed.

End ValueErrors.

End ParserProps.

(** ** Properties of the e-mail sender *)

Module EmailProps.
Import Pandas EmailSender Examples Stated.

(** *** The suppression loop *)

Lemma no_filled_group (groups : group_results) :
  forallb (fun group => negb (nonempty (snd group))) groups = true ->
  filter (fun kv => nonempty (snd kv)) groups = [].
Proof.
  induction groups as [|[g results] groups IH]; cbn; [reflexivity|].
  destruct (nonempty results); cbn; [discriminate | exact IH].
Qed.

(** On a report whose groups hold no term, the loop keeps the flag and
    binds [content] to the fixed message as soon as there is a block. *)
Lemma scan_all_groups_empty (search_report : list SearchBlock) st :
  all_groups_empty search_report = true ->
  fold_left scan_step search_report st
  = match search_report with
    | [] => st
    | _ => (fst st, Some nothing_found)
    end.
Proof.
  revert st. induction search_report as [|search rest IH]; intros st H.
  - reflexivity.
  - cbn in H. apply andb_prop in H as [Hb Hrest].
    cbn [fold_left]. rewrite (IH _ Hrest).
    unfold scan_step. destruct st as [skip content].
    rewrite (no_filled_group _ Hb). cbn.
    now destruct rest.
Qed.

Lemma filled_group_test (groups : group_results) :
  nonempty (filter (fun kv => nonempty (snd kv)) groups)
  = negb (forallb (fun group => negb (nonempty (snd group))) groups).
Proof.
  induction groups as [|[g results] groups IH]; cbn; [reflexivity|].
  destruct (nonempty results); cbn; [reflexivity | exact IH].
Qed.

(** The flag [skip_notification] after the loop: no group of any block
    holds a term entry. *)
Lemma skip_flag_fold (search_report : list SearchBlock) skip content :
  fst (fold_left scan_step search_report (skip, content))
  = skip && all_groups_empty search_report.
Proof.
  revert skip content.
  induction search_report as [|search rest IH]; intros skip content.
  - cbn. now rewrite andb_true_r.
  - cbn [fold_left]. unfold scan_step at 2. rewrite filled_group_test.
    change (all_groups_empty (search :: rest))
      with (forallb (fun group => negb (nonempty (snd group))) (result search)
            && all_groups_empty rest).
    destruct (forallb (fun group => negb (nonempty (snd group)))
                (result search)); cbn [negb]; rewrite IH.
    + reflexivity.
    + cbn. now rewrite andb_false_r.
Qed.

Lemma skip_flag (search_report : list SearchBlock) :
  fst (scan_report search_report) = all_groups_empty search_report.
Proof. apply skip_flag_fold. Qed.

(** C1, amended.  When every group of every block of the report holds no
    term entry (in particular for a report without block) and [skip_null]
    is true, [send] returns "skip_notification" and the mail sink is not
    called. *)
Theorem C1_skip_when_groups_empty (ext : Externals) specs search_report
  report_date outbox :
  all_groups_empty search_report = true ->
  skip_null specs = true ->
  send specs search_report report_date outbox
  = (Return (Some "skip_notification"), outbox).
Proof.
  intros Hempty Hskip. unfold send, scan_report.
  rewrite (scan_all_groups_empty _ _ Hempty), Hskip.
  now destruct search_report.
Qed.

Lemma C1_skip_when_groups_empty_witness :
  all_groups_empty report_group_without_term = true
  /\ @send email_externals (specs_of true true) report_group_without_term
       "02/01/2024" []
     = (Return (Some "skip_notification"), []).
Proof.
  split; [reflexivity|].
  exact (C1_skip_when_groups_empty email_externals (specs_of true true)
           report_group_without_term "02/01/2024" [] eq_refl eq_refl).
Defined.

(** The skipped result is returned in no other case. *)
Lemma send_skips_only_when_groups_empty (ext : Externals) specs search_report
  report_date outbox r :
  send specs search_report report_date outbox = (Return (Some r), outbox) ->
  all_groups_empty search_report = true /\ skip_null specs = true.
Proof.
  unfold send. rewrite <- skip_flag.
  destruct (scan_report search_report) as [skip content]. cbn [fst].
  destruct (skip && skip_null specs) eqn:E.
  - intros _. now apply andb_prop in E.
  - unfold deliver, bind.
    destruct (attach_csv specs && negb skip);
      repeat match goal with
             | |- context [match ?c with _ => _ end] => destruct c
             end;
      intros [=].
Qed.

(** What [send] does on the report whose only term has an empty match
    list: the mail sink is called with the expansion of the usual
    structure, whatever [skip_null]. *)
Lemma send_term_without_match (ext : Externals) skip report_date outbox :
  send (specs_of false skip) report_term_without_match report_date outbox
  = deliver {| to := ["a@example.org"];
               mail_subject := "Extraçao do DOU - DOs de " ++ report_date;
               files := [];
               html_content :=
                 markdown ("<style>" ++ nl ++ report_style_css ++ "</style>"
                           ++ nl ++ nl ++ nl ++ "* # Resultados para: dengue"
                           ++ nl ++ "---");
               mime_charset := "utf-8" |} outbox.
Proof.
  assert (Hsrc : @email_source ext report_term_without_match
                 = "<style>" ++ nl ++ @report_style_css ext ++ "</style>"
                   ++ nl ++ nl ++ nl ++ "* # Resultados para: dengue"
                   ++ nl ++ "---").
  { unfold email_source. cbn -[append nl].
    now rewrite !ParserProps.append_assoc. }
  unfold send, generate_email_content. rewrite Hsrc. reflexivity.
Qed.

(** C1 as stated fails: a term entry with an empty match list is enough for
    the notification to be sent although [skip_null] is true. *)
Lemma C1_counterexample : ~ skip_when_no_match.
Proof.
  intros H.
  pose proof (H email_externals (specs_of false true)
                report_term_without_match "02/01/2024" [] eq_refl eq_refl)
    as Hc.
  rewrite send_term_without_match in Hc. discriminate.
Qed.

(** C8, amended.  When the report has at least one block, every group of
    every block holds no term entry and [skip_null] is false, [send] calls
    the mail sink once, without attachment, with the fixed message
    "Nenhum dos termos pesquisados foi encontrado." as its body. *)
Theorem C8_fixed_message_when_groups_empty (ext : Externals) specs
  search_report report_date outbox :
  search_report <> [] ->
  all_groups_empty search_report = true ->
  skip_null specs = false ->
  send specs search_report report_date outbox
  = deliver {| to := emails specs;
               mail_subject := subject specs ++ " - DOs de " ++ report_date;
               files := [];
               html_content := "Nenhum dos termos pesquisados foi encontrado.";
               mime_charset := "utf-8" |} outbox.
Proof.
  intros Hne Hempty Hskip. unfold send, scan_report.
  rewrite (scan_all_groups_empty _ _ Hempty), Hskip.
  destruct search_report as [|search rest]; [now elim Hne|].
  cbn [fst]. rewrite andb_false_r. cbn [negb]. rewrite andb_false_r.
  reflexivity.
Qed.

Lemma C8_fixed_message_when_groups_empty_witness :
  report_group_without_term <> []
  /\ all_groups_empty report_group_without_term = true
  /\ @send email_externals (specs_of true false) report_group_without_term
       "02/01/2024" []
     = (Return None,
        [{| to := ["a@example.org"];
            mail_subject := "Extraçao do DOU - DOs de 02/01/2024";
            files := [];
            html_content := "Nenhum dos termos pesquisados foi encontrado.";
            mime_charset := "utf-8" |}]).
Proof.
  assert (Hne : report_group_without_term <> []) by discriminate.
  split; [exact Hne|]. split; [reflexivity|].
  exact (C8_fixed_message_when_groups_empty email_externals
           (specs_of true false) report_group_without_term "02/01/2024" []
           Hne eq_refl eq_refl).
Defined.

(** C8 as stated fails: with a term entry whose match list is empty the
    body is the expansion of the usual structure (style sheet, term
    heading, separator), not the fixed message. *)
Lemma C8_counterexample :
  ~ fixed_message_when_no_match
  /\ all_match_lists_empty report_term_without_match = true
  /\ forall (ext : Externals) report_date outbox,
       send (specs_of false false) report_term_without_match report_date
            outbox
       = deliver {| to := ["a@example.org"];
                    mail_subject := "Extraçao do DOU - DOs de " ++ report_date;
                    files := [];
                    html_content :=
                      markdown ("<style>" ++ nl ++ report_style_css
                                ++ "</style>" ++ nl ++ nl ++ nl
                                ++ "* # Resultados para: dengue"
                                ++ nl ++ "---");
                    mime_charset := "utf-8" |} outbox.
Proof.
  split; [|split; [reflexivity | intros; apply send_term_without_match]].
  intros H.
  destruct (H email_externals (specs_of false false)
              report_term_without_match "02/01/2024" [] eq_refl eq_refl)
    as (call & Hsend & Hbody).
  rewrite send_term_without_match in Hsend.
  injection Hsend as <-. vm_compute in Hbody. discriminate.
Qed.

(** C10.  On the report without block, with [skip_null] false, [send]
    fails on the unbound local [content] and the mail sink is not called:
    [send] does not return for every report. *)
Theorem C10_unbound_content_on_no_block (ext : Externals) specs report_date
  outbox :
  skip_null specs = false ->
  send specs [] report_date outbox
  = (Raise (UnboundLocalError "content"), outbox).
Proof.
  intros Hskip. unfold send. cbn. rewrite Hskip. cbn.
  now rewrite andb_false_r.
Qed.

Lemma C10_unbound_content_on_no_block_witness :
  skip_null (specs_of true false) = false
  /\ @send email_externals (specs_of true false) [] "02/01/2024" []
     = (Raise (UnboundLocalError "content"), []).
Proof.
  split; [reflexivity|].
  exact (C10_unbound_content_on_no_block email_externals (specs_of true false)
           "02/01/2024" [] eq_refl).
Defined.

(** *** The CSV export *)

Lemma repacked_rows_have_eight_cells (search_report : list SearchBlock) r :
  In r (convert_report_dict_to_tuple_list search_report) ->
  List.length r = 8.
Proof.
  unfold convert_report_dict_to_tuple_list. intros H.
  apply in_flat_map in H as (search & _ & H).
  apply in_flat_map in H as ([group results] & _ & H).
  apply in_flat_map in H as ([term matches] & _ & H).
  apply in_map_iff in H as (m & <- & _). reflexivity.
Qed.

(** The two flags are a conjunction and a disjunction over the blocks. *)
Lemma scan_flags_fold (search_report : list SearchBlock) del_header del_group :
  fold_left (fun '(del_header, del_single_group) search =>
               ((match header search with
                 | Some _ => false
                 | None => del_header
                 end),
                (if mem single_group (result search) then true
                 else del_single_group)))
            search_report (del_header, del_group)
  = (del_header
     && forallb (fun b => match header b with
                          | None => true
                          | Some _ => false
                          end) search_report,
     del_group
     || existsb (fun b => mem single_group (result b)) search_report).
Proof.
  revert del_header del_group.
  induction search_report as [|search rest IH]; intros dh dg; cbn.
  - now rewrite andb_true_r, orb_false_r.
  - rewrite IH. destruct (header search), (mem single_group (result search));
      cbn; rewrite ?andb_false_r, ?orb_true_r, ?orb_false_r; reflexivity.
Qed.

Lemma no_header_anywhere (search_report : list SearchBlock) :
  forallb (fun b => match header b with None => true | Some _ => false end)
          search_report = true
  <-> Forall (fun b => header b = None) search_report.
Proof.
  rewrite forallb_forall, Forall_forall.
  split; intros H b Hb; specialize (H b Hb); now destruct (header b).
Qed.

Lemma sentinel_somewhere (search_report : list SearchBlock) :
  existsb (fun b => mem single_group (result b)) search_report = true
  <-> Exists (fun b => mem single_group (result b) = true) search_report.
Proof. now rewrite existsb_exists, Exists_exists. Qed.

(** The frame returned for a report with at least one match: the eight
    columns, without [Consulta] when no block has a header and without
    [Grupo] when some block uses the sentinel. *)
Lemma convert_report_to_dataframe_columns (search_report : list SearchBlock) :
  convert_report_dict_to_tuple_list search_report <> [] ->
  exists df,
    convert_report_to_dataframe search_report = Return df
    /\ columns df
       = map Name
           (filter (fun c =>
                      negb (String.eqb c "Consulta"
                            && forallb (fun b => match header b with
                                                 | None => true
                                                 | Some _ => false
                                                 end) search_report)
                      && negb (String.eqb c "Grupo"
                               && existsb (fun b => mem single_group (result b))
                                          search_report))
                   csv_columns).
Proof.
  intros Hne. unfold convert_report_to_dataframe, scan_flags.
  rewrite scan_flags_fold. cbn [andb orb].
  destruct (convert_report_dict_to_tuple_list search_report) as [|r rs] eqn:E;
    [now elim Hne|].
  assert (Hlen : List.length r = 8).
  { apply (repacked_rows_have_eight_cells search_report). rewrite E. now left. }
  unfold of_records, set_columns. cbn [columns rows].
  rewrite length_map, length_seq, Hlen. cbn [Nat.eqb List.length csv_columns bind].
  destruct (forallb _ search_report), (existsb _ search_report);
    cbn; eexists; split; reflexivity.
Qed.

(** C5.  The CSV export of a report: the column [Consulta] is dropped
    exactly when no block has a header, the column [Grupo] exactly when
    some block's result mapping has the key "single_group", and the six
    other columns are always kept.  (Without any match row there is no
    export: assigning the column names fails.) *)
Theorem C5_csv_dropped_columns (search_report : list SearchBlock) :
  match convert_report_to_dataframe search_report with
  | Return df =>
      convert_report_dict_to_tuple_list search_report <> []
      /\ (~ In (Name "Consulta") (columns df)
          <-> Forall (fun b => header b = None) search_report)
      /\ (~ In (Name "Grupo") (columns df)
          <-> Exists (fun b => mem single_group (result b) = true)
                     search_report)
      /\ (forall c, In c ["Termo de pesquisa"; "Seção"; "URL"; "Título";
                          "Resumo"; "Data"] ->
                    In (Name c) (columns df))
  | Raise e =>
      convert_report_dict_to_tuple_list search_report = []
  end.
Proof.
  destruct (convert_report_dict_to_tuple_list search_report) as [|r rs] eqn:E.
  - unfold convert_report_to_dataframe. rewrite E. reflexivity.
  - assert (Hne : convert_report_dict_to_tuple_list search_report <> [])
      by (rewrite E; discriminate).
    destruct (convert_report_to_dataframe_columns _ Hne) as (df & -> & Hcols).
    rewrite Hcols. split; [discriminate|].
    rewrite <- no_header_anywhere, <- sentinel_somewhere.
    destruct (forallb _ search_report), (existsb _ search_report); cbn;
      repeat split; try discriminate; try reflexivity;
      try (intros _; intros H;
           repeat (destruct H as [H|H]; [discriminate H|]); exact H);
      try (intros H; exfalso; apply H; auto 10 with datatypes);
      try (intros c H;
           repeat (destruct H as [<-|H]; [auto 10 with datatypes|]);
           now elim H).
Qed.

End EmailProps.

(** ** Properties of the chat sender *)

Module SlackProps.
Import SlackSender Examples.

Lemma with_blocks_nil (self : SlackSender) :
  {| webhook_url := webhook_url self; blocks := (blocks self ++ [])%list |}
  = self.
Proof. destruct self; cbn. now rewrite app_nil_r. Qed.

(** The loop over the matches of a term appends the four blocks of each
    match, in list order. *)
Lemma add_blocks_fold (items : list Match) (self : SlackSender) :
  fold_left _add_block items self
  = {| webhook_url := webhook_url self;
       blocks := (blocks self ++ flat_map match_blocks_spec items)%list |}.
Proof.
  revert self. induction items as [|item items IH]; intros self.
  - cbn. now rewrite with_blocks_nil.
  - cbn [fold_left flat_map]. rewrite IH. unfold _add_block. cbn.
    now rewrite <- app_assoc.
Qed.

Lemma add_terms_spec (results : term_results) (self : SlackSender) :
  add_terms self results
  = {| webhook_url := webhook_url self;
       blocks := (blocks self
                  ++ flat_map (fun kv => term_blocks_spec (fst kv) (snd kv))
                       results)%list |}.
Proof.
  unfold add_terms. revert self.
  induction results as [|[term items] results IH]; intros self.
  - cbn. now rewrite with_blocks_nil.
  - cbn [fold_left flat_map fst snd]. rewrite IH.
    destruct items as [|item items].
    + reflexivity.
    + rewrite add_blocks_fold. unfold _add_header, term_blocks_spec. cbn.
      now rewrite <- !app_assoc.
Qed.

Lemma add_groups_spec (search_report : group_results) (self : SlackSender) :
  add_groups self search_report
  = {| webhook_url := webhook_url self;
       blocks := (blocks self ++ render_blocks_spec search_report)%list |}.
Proof.
  unfold add_groups, render_blocks_spec. revert self.
  induction search_report as [|[group results] rest IH]; intros self.
  - cbn. now rewrite with_blocks_nil.
  - cbn [fold_left flat_map fst snd]. rewrite IH, add_terms_spec.
    unfold group_blocks_spec.
    destruct (String.eqb group single_group); cbn;
      now rewrite <- !app_assoc.
Qed.

Lemma term_blocks_count (results : term_results) :
  List.length (flat_map (fun kv => term_blocks_spec (fst kv) (snd kv)) results)
  = List.length (filter (fun kv => match snd kv with [] => false | _ => true end)
                   results)
    + 4 * List.length (flat_map snd results).
Proof.
  induction results as [|[term items] results IH]; [reflexivity|].
  cbn [flat_map fst snd filter]. rewrite !length_app, IH.
  destruct items as [|item items]; [reflexivity|].
  unfold term_blocks_spec. cbn [List.length].
  assert (H : forall ms, List.length (flat_map match_blocks_spec ms)
                         = 4 * List.length ms).
  { induction ms as [|m ms IHm]; [reflexivity|].
    cbn [flat_map]. rewrite length_app, IHm.
    unfold match_blocks_spec. cbn [List.length]. lia. }
  cbn [List.length]. rewrite H. cbn [List.length]. lia.
Qed.

Lemma render_blocks_count (search_report : group_results) :
  List.length (render_blocks_spec search_report)
  = named_groups search_report + matched_terms search_report
    + 4 * all_matches search_report.
Proof.
  unfold render_blocks_spec, named_groups, matched_terms, all_matches.
  induction search_report as [|[group results] rest IH]; [reflexivity|].
  cbn [flat_map fst snd filter]. rewrite !length_app, IH.
  unfold group_blocks_spec.
  rewrite filter_app, flat_map_app, !length_app, term_blocks_count.
  destruct (String.eqb group single_group); cbn [negb List.length]; lia.
Qed.

(** C4.  One invocation of [send] appends to the blocks of the instance,
    and posts with them, the sequence the specification describes: per
    group in map order a header labelled "Grupo: g" unless g is
    "single_group"; per term with a match a header labelled "Termo: t"
    and, per match in list order, a text block with the title, a text
    block with the abstract, the caption "Publicado em: 15/03/2023" with
    the button "Acessar publicação" whose url is the match's href, and a
    divider; nothing for a term without match.  The sequence has one block
    per named group, one per matched term and four per match. *)
Theorem C4_chat_block_sequence (ext : Externals) (self : SlackSender)
  (search_report : group_results) report_date log :
  let emitted := render_blocks_spec search_report in
  let post := {| url := webhook_url self;
                 data := JObj [("blocks", JArr (blocks self ++ emitted))] |} in
  send self search_report report_date log
  = (raise_for_status (requests_post post),
     {| webhook_url := webhook_url self;
        blocks := (blocks self ++ emitted)%list |},
     (log ++ [post])%list)
  /\ List.length emitted
     = named_groups search_report + matched_terms search_report
       + 4 * all_matches search_report
  /\ (forall rest,
        render_blocks_spec (("single_group", []) :: rest)
        = render_blocks_spec rest)
  /\ (forall group results rest,
        group <> "single_group" ->
        render_blocks_spec ((group, results) :: rest)
        = (JObj [("type", JStr "header");
                 ("text", JObj [("type", JStr "plain_text");
                                ("text", JStr ("Grupo: " ++ group));
                                ("emoji", JBool true)])]
           :: render_blocks_spec (("single_group", results) :: rest)))
  /\ (forall term results rest,
        render_blocks_spec (("single_group", (term, []) :: results) :: rest)
        = render_blocks_spec (("single_group", results) :: rest))
  /\ (forall term m matches results rest,
        render_blocks_spec
          (("single_group", (term, m :: matches) :: results) :: rest)
        = (JObj [("type", JStr "header");
                 ("text", JObj [("type", JStr "plain_text");
                                ("text", JStr ("Termo: " ++ term));
                                ("emoji", JBool true)])]
           :: flat_map
                (fun m =>
                   [JObj [("type", JStr "section");
                          ("text", JObj [("type", JStr "mrkdwn");
                                         ("text", JStr (title m))])];
                    JObj [("type", JStr "section");
                          ("text", JObj [("type", JStr "mrkdwn");
                                         ("text", JStr (abstract m))])];
                    JObj [("type", JStr "section");
                          ("text", JObj [("type", JStr "mrkdwn");
                                         ("text",
                                          JStr "Publicado em: 15/03/2023")]);
                          ("accessory",
                           JObj [("type", JStr "button");
                                 ("text",
                                  JObj [("type", JStr "plain_text");
                                        ("text", JStr "Acessar publicação");
                                        ("emoji", JBool true)]);
                                 ("value", JStr "click_me_123");
                                 ("url", JStr (href m));
                                 ("action_id", JStr "button-action")])];
                    JObj [("type", JStr "divider")]])
                (m :: matches)
           ++ render_blocks_spec (("single_group", results) :: rest))%list).
Proof.
  cbn zeta. split; [|split; [apply render_blocks_count|]].
  - unfold send, _flush. now rewrite add_groups_spec.
  - split; [|split; [|split]].
    + reflexivity.
    + intros group results rest Hgroup.
      apply String.eqb_neq in Hgroup.
      unfold render_blocks_spec. cbn [flat_map fst snd].
      unfold group_blocks_spec. unfold single_group. rewrite Hgroup.
      reflexivity.
    + reflexivity.
    + intros term m matches results rest.
      unfold render_blocks_spec. cbn [flat_map fst snd].
      unfold group_blocks_spec. cbn [String.eqb Ascii.eqb Bool.eqb app].
      cbn [flat_map fst snd]. unfold term_blocks_spec at 1.
      rewrite <- !app_assoc. reflexivity.
Qed.

(** Two successive invocations on one instance: the second post carries
    the blocks of both reports. *)
Lemma send_twice (ext : Externals) specs r1 r2 d1 d2 :
  let '(_, self1, log1) := send (init specs) r1 d1 [] in
  let '(_, _, log2) := send self1 r2 d2 log1 in
  map data log2
  = [JObj [("blocks", JArr (render_blocks_spec r1))];
     JObj [("blocks",
            JArr (render_blocks_spec r1 ++ render_blocks_spec r2))]].
Proof.
  unfold send, _flush. rewrite !add_groups_spec. reflexivity.
Qed.

(** C9, at the failing input.  A fresh instance is sent the report with
    the term "vacina" and then the report with the term "servidor": each
    invocation posts one payload of shape [{"blocks": [...]}], and the
    second payload holds the five blocks of the first report before the
    five of the second, not the second report's blocks alone. *)
Theorem C9_second_send_posts_earlier_blocks (ext : Externals) :
  let '(_, self1, log1) :=
    send (init (specs_of false true)) chat_report_1 None [] in
  let '(_, _, log2) := send self1 chat_report_2 None log1 in
  map data log2
  = [JObj [("blocks", JArr (render_blocks_spec chat_report_1))];
     JObj [("blocks",
            JArr (render_blocks_spec chat_report_1
                  ++ render_blocks_spec chat_report_2))]]
  /\ List.length (render_blocks_spec chat_report_1
                  ++ render_blocks_spec chat_report_2) = 10
  /\ List.length (render_blocks_spec chat_report_2) = 5.
Proof. repeat split. Qed.

End SlackProps.

(** ** Lines of a text *)

Module TextProps.
Import Measures.

Lemma append_nil_r (s : string) : s ++ "" = s.
Proof. induction s as [|a s IH]; cbn; [reflexivity | now rewrite IH]. Qed.

Lemma append_chr (cur : string) (a : ascii) (l : string) :
  (cur ++ chr a) ++ l = cur ++ String a l.
Proof. induction cur as [|c cur IH]; cbn; [reflexivity | now rewrite IH]. Qed.

(** Reading a plain stretch of text only extends the current line. *)
Lemma splitlines_from_plain (l rest cur : string) :
  plain_line l = true ->
  splitlines_from (l ++ rest) cur = splitlines_from rest (cur ++ l).
Proof.
  revert cur. induction l as [|a l IH]; intros cur H.
  - cbn. now rewrite append_nil_r.
  - unfold plain_line in H. cbn [list_ascii_of_string forallb] in H.
    apply andb_prop in H as [Ha Hl]. apply andb_prop in Ha as [Hlt Hbr].
    apply negb_true_iff in Hbr. apply Nat.ltb_lt in Hlt.
    change (String a l ++ rest) with (String a (l ++ rest)).
    cbn [splitlines_from]. cbv zeta.
    assert (H13 : Nat.eqb (nat_of_ascii a) 13 = false).
    { unfold is_line_break1 in Hbr. cbv zeta in Hbr.
      destruct (Nat.eqb (nat_of_ascii a) 13); [|reflexivity].
      now rewrite !orb_true_r in Hbr. }
    assert (H194 : Nat.eqb (nat_of_ascii a) 194 = false)
      by (apply Nat.eqb_neq; lia).
    assert (H226 : Nat.eqb (nat_of_ascii a) 226 = false)
      by (apply Nat.eqb_neq; lia).
    rewrite H13, Hbr, H194, H226, (IH _ Hl). now rewrite append_chr.
Qed.

(** A line feed closes the current line. *)
Lemma splitlines_from_nl (rest cur : string) :
  splitlines_from (nl ++ rest) cur = cur :: splitlines_from rest "".
Proof. reflexivity. Qed.

Lemma splitlines_from_join (lines : list string) (l cur : string) :
  forallb plain_line (l :: lines) = true ->
  splitlines_from (join nl (l :: lines)) cur
  = match lines with
    | [] => flush_line (cur ++ l) []
    | _ => (cur ++ l) :: splitlines_from (join nl lines) ""
    end.
Proof.
  intros H. cbn [forallb] in H. apply andb_prop in H as [Hl _].
  destruct lines as [|l' lines].
  - cbn [join]. rewrite <- (append_nil_r l) at 1.
    now rewrite (splitlines_from_plain _ _ _ Hl).
  - change (join nl (l :: l' :: lines))
      with (l ++ nl ++ join nl (l' :: lines)).
    now rewrite (splitlines_from_plain _ _ _ Hl), splitlines_from_nl.
Qed.

(** Splitting what [join] made with line feeds gives the lines back, when
    the lines are plain ASCII without line boundary and the last one is not
    empty. *)
Lemma splitlines_join (lines : list string) :
  forallb plain_line lines = true ->
  last lines "." <> "" ->
  splitlines (join nl lines) = lines.
Proof.
  unfold splitlines. induction lines as [|l lines IH]; intros Hplain Hlast.
  - reflexivity.
  - rewrite (splitlines_from_join _ _ _ Hplain).
    destruct lines as [|l' lines].
    + cbn in Hlast. cbn. destruct l; [now elim Hlast | reflexivity].
    + cbn [forallb] in Hplain. apply andb_prop in Hplain as [_ Hrest].
      cbn [append]. f_equal. apply IH; [exact Hrest | exact Hlast].
Qed.

(** A last line that is empty is lost: the text of [lines] followed by one
    empty line splits into [lines] alone. *)
Lemma splitlines_join_final_empty (lines : list string) :
  lines <> [] ->
  forallb plain_line lines = true ->
  splitlines (join nl (lines ++ [""])) = lines.
Proof.
  unfold splitlines. induction lines as [|l lines IH]; intros Hne Hplain.
  - now elim Hne.
  - assert (Hall : forallb plain_line (l :: lines ++ [""]) = true).
    { cbn [forallb] in *. apply andb_prop in Hplain as [Hl Hrest].
      rewrite Hl, forallb_app, Hrest. reflexivity. }
    change ((l :: lines) ++ [""])%list with (l :: (lines ++ [""]))%list.
    rewrite (splitlines_from_join _ _ _ Hall).
    destruct lines as [|l' lines].
    + reflexivity.
    + cbn [app append]. f_equal. apply IH; [discriminate|].
      cbn [forallb] in Hplain. now apply andb_prop in Hplain as [_ ?].
Qed.

End TextProps.

(** ** Further properties of the configuration parser *)

Module ParserExtra.
Import Parsers Examples Stated Measures ParserProps TextProps.

(** *** Inversion of the error monad *)

Lemma bind_return {A B} (c : py_result A) (k : A -> py_result B) (b : B) :
  bind c k = Return b -> exists a, c = Return a /\ k a = Return b.
Proof. destruct c as [a|e]; cbn; [eauto | discriminate]. Qed.

Lemma for_each_length {A B} (f : A -> py_result B) (xs : list A) ys :
  for_each f xs = Return ys -> List.length ys = List.length xs.
Proof.
  revert ys. induction xs as [|x xs IH]; intros ys; cbn [for_each].
  - now intros [= <-].
  - intros H. apply bind_return in H as (y & _ & H).
    apply bind_return in H as (ys' & Hys & H).
    injection H as <-. cbn. now rewrite (IH _ Hys).
Qed.

Lemma try_get_return self v k r :
  _try_get self v k None = Return r ->
  exists m, v = PyDict m /\ lookup k m = Some r.
Proof.
  unfold _try_get, subscript. destruct v as [| | | | |m]; try discriminate.
  destruct (lookup k m) as [x|] eqn:E; [|discriminate].
  intros [= <-]. now exists m.
Qed.

Lemma get_return_field v k d r :
  get v k d = Return r -> exists m, v = PyDict m /\ r = field_or m k d.
Proof.
  destruct v as [| | | | |m]; cbn [get]; try discriminate.
  intros H. exists m. split; [reflexivity|]. unfold field_or.
  destruct (lookup k m); now injection H as <-.
Qed.

Lemma append_return l x r :
  append l x = Return r ->
  exists items, l = PyList items /\ r = PyList (items ++ [x]).
Proof.
  destruct l; cbn [append]; try discriminate.
  intros [= <-]. eauto.
Qed.

(** *** Sets of tags *)

Lemma set_add_keeps x y s : In y s -> In y (set_add x s).
Proof.
  induction s as [|z s IH]; cbn; [tauto|].
  destruct (atom_eqb x z); cbn; tauto.
Qed.

Lemma set_add_str t s : In (PyStr t) (set_add (PyStr t) s).
Proof.
  induction s as [|z s IH]; cbn; [now left|].
  destruct z; cbn; try (right; exact IH).
  destruct (String.eqb t s0) eqn:E; [|right; exact IH].
  apply String.eqb_eq in E. subst. now left.
Qed.

Lemma set_of_list_members l : forall acc r,
  set_of_list acc l = Return r ->
  (forall y, In y acc -> In y r)
  /\ (forall t, In (PyStr t) l -> In (PyStr t) r).
Proof.
  induction l as [|x l IH]; intros acc r; cbn [set_of_list].
  - intros [= <-]. split; [auto | intros t []].
  - destruct (hashable x); [|discriminate]. intros H.
    destruct (IH _ _ H) as [Hacc Hl]. split.
    + intros y Hy. apply Hacc. now apply set_add_keeps.
    + intros t [-> | Ht]; [apply Hacc, set_add_str | now apply Hl].
Qed.

(** *** What a returned configuration tells *)

(** The steps [_parse_yaml] went through when it returns. *)
Lemma parse_return (ext : Externals) self doc cfg :
  parse self doc = Return cfg ->
  exists docm dag report s tags,
    doc = PyDict docm
    /\ lookup "dag" docm = Some (PyDict dag)
    /\ lookup "id" dag = Some (dag_id cfg)
    /\ lookup "description" dag = Some (description cfg)
    /\ lookup "report" dag = Some (PyDict report)
    /\ lookup "search" dag = Some s
    /\ for_each (parse_subsearch self)
         (match s with PyList l => l | _ => [s] end) = Return (search cfg)
    /\ py_join ", " (field_or dag "owner" (PyList [])) = Return (owner cfg)
    /\ field_or dag "tags" (PyList []) = PyList tags
    /\ set_of_list [] (tags ++ [PyStr "dou"; PyStr "generated_dag"])
       = Return (dag_tags cfg)
    /\ skip_null cfg = field_or report "skip_null" (PyBool true)
    /\ emails cfg = field_or report "emails" PyNone
    /\ subject cfg = field_or report "subject" (PyStr "Extraçao do DOU")
    /\ attach_csv cfg = field_or report "attach_csv" (PyBool false)
    /\ hide_filters cfg = field_or report "hide_filters" (PyBool false)
    /\ schedule cfg = field_or dag "schedule" PyNone
    /\ dataset cfg = field_or dag "dataset" PyNone.
Proof.
  unfold parse, _parse_yaml. intros H.
  repeat (apply bind_return in H as (? & ? & H)).
  injection H as <-. cbn.
  repeat match goal with
         | Hx : webhook_of _ _ = Return _ |- _ =>
             unfold webhook_of in Hx;
             apply bind_return in Hx as (? & Hx & _)
         | Hx : py_set _ = Return _ |- _ => unfold py_set in Hx
         | Hx : _try_get _ _ _ None = Return _ |- _ =>
             apply try_get_return in Hx as (? & ? & ?)
         | Hx : get _ _ _ = Return _ |- _ =>
             apply get_return_field in Hx as (? & ? & ?)
         | Hx : append _ _ = Return _ |- _ =>
             apply append_return in Hx as (? & ? & ?)
         | Hx : PyDict _ = PyDict _ |- _ => injection Hx as Hx
         | Hx : PyList _ = PyList _ |- _ => injection Hx as Hx
         | Hx : ?a = ?b |- _ => first [subst a | subst b]
         end.
  rewrite <- app_assoc in *. cbn [app] in *.
  do 5 eexists. repeat split; try eassumption; try reflexivity.
Qed.

Lemma set_add_members x y s : In y (set_add x s) -> y = x \/ In y s.
Proof.
  induction s as [|z s IH]; cbn.
  - intros [<- | []]. now left.
  - destruct (atom_eqb x z); cbn; [tauto|].
    intros [<- | H]; [tauto|]. destruct (IH H); tauto.
Qed.

Lemma atom_eqb_refl x : hashable x = true -> atom_eqb x x = true.
Proof.
  destruct x; cbn; try discriminate; intros _;
    auto using Bool.eqb_reflx, Z.eqb_refl, String.eqb_refl.
Qed.

Lemma set_add_nodup x s :
  hashable x = true -> NoDup s -> NoDup (set_add x s).
Proof.
  intros Hx. induction s as [|z s IH]; intros Hs; cbn.
  - repeat constructor. intros [].
  - destruct (atom_eqb x z) eqn:E; [exact Hs|].
    inversion Hs as [|? ? Hz Hs']; subst. constructor; [|now apply IH].
    intros Hin. apply set_add_members in Hin as [-> | Hin]; [|contradiction].
    rewrite (atom_eqb_refl _ Hx) in E. discriminate.
Qed.

Lemma set_of_list_nodup l : forall acc r,
  set_of_list acc l = Return r -> NoDup acc -> NoDup r.
Proof.
  induction l as [|x l IH]; intros acc r; cbn [set_of_list].
  - now intros [= <-].
  - destruct (hashable x) eqn:Hx; [|discriminate].
    intros H Hacc. apply (IH _ _ H). now apply set_add_nodup.
Qed.

(** X1.  When [parse] returns a configuration, its tags hold the two
    default tags "dou" and "generated_dag", whatever tags were declared,
    and hold no tag twice. *)
Theorem X1_default_tags (ext : Externals) self doc cfg :
  parse self doc = Return cfg ->
  In (PyStr "dou") (dag_tags cfg)
  /\ In (PyStr "generated_dag") (dag_tags cfg)
  /\ NoDup (dag_tags cfg).
Proof.
  intros H. apply parse_return in H
    as (docm & dag & report & s & tags & H).
  destruct H as (_ & _ & _ & _ & _ & _ & _ & _ & _ & Hset & _).
  destruct (set_of_list_members _ _ _ Hset) as [_ Hin].
  repeat split; try (apply Hin; rewrite in_app_iff; cbn; auto).
  apply (set_of_list_nodup _ _ _ Hset). constructor.
Qed.

Lemma X1_default_tags_witness :
  exists cfg,
    @parse (parser_externals []) a_parser (document search_from_db)
    = Return cfg
    /\ In (PyStr "dou") (dag_tags cfg)
    /\ In (PyStr "generated_dag") (dag_tags cfg)
    /\ NoDup (dag_tags cfg).
Proof.
  eexists. split; [reflexivity|].
  exact (X1_default_tags (parser_externals []) a_parser
           (document search_from_db) _ eq_refl).
Defined.

(** X2.  The mandatory fields of [dag] are read in the order id,
    description, report, search: the first one that is missing is the one
    the error names, whatever else the document holds. *)
Theorem X2_first_missing_field (ext : Externals) self doc dag k :
  lookup "dag" doc = Some (PyDict dag) ->
  first_missing ["id"; "description"; "report"; "search"] dag = Some k ->
  parse self (PyDict doc)
  = Raise (ValueError ("Erro no arquivo " ++ last_component (filepath self)
                       ++ ": O campo `" ++ k ++ "` é obrigatório.")).
Proof.
  intros Hdag Hk. unfold parse, _parse_yaml.
  rewrite (try_get_present _ _ _ _ _ Hdag). cbn [bind].
  unfold first_missing, mem in Hk. cbn [find] in Hk.
  destruct (lookup "id" dag) as [v1|] eqn:E1; cbn [negb] in Hk.
  2:{ injection Hk as <-. now rewrite (try_get_absent _ _ _ E1). }
  rewrite (try_get_present _ _ _ _ _ E1). cbn [bind].
  destruct (lookup "description" dag) as [v2|] eqn:E2; cbn [negb] in Hk.
  2:{ injection Hk as <-. now rewrite (try_get_absent _ _ _ E2). }
  rewrite (try_get_present _ _ _ _ _ E2). cbn [bind].
  destruct (lookup "report" dag) as [v3|] eqn:E3; cbn [negb] in Hk.
  2:{ injection Hk as <-. now rewrite (try_get_absent _ _ _ E3). }
  rewrite (try_get_present _ _ _ _ _ E3). cbn [bind].
  destruct (lookup "search" dag) as [v4|] eqn:E4; cbn [negb] in Hk.
  2:{ injection Hk as <-. now rewrite (try_get_absent _ _ _ E4). }
  discriminate.
Qed.

Lemma X2_first_missing_field_witness :
  @parse (parser_externals []) a_parser
     (PyDict [("dag", PyDict [("id", PyStr "saude");
                              ("search", search_bad_shape)])])
  = Raise (ValueError
             "Erro no arquivo saude.yaml: O campo `description` é obrigatório.").
Proof.
  exact (X2_first_missing_field (parser_externals []) a_parser
           [("dag", PyDict [("id", PyStr "saude");
                            ("search", search_bad_shape)])]
           [("id", PyStr "saude"); ("search", search_bad_shape)]
           "description" eq_refl eq_refl).
Defined.

(** X3.  A document that is not a mapping (an empty file loads as [None]),
    or whose [dag] is not a mapping, makes [parse] fail with a [TypeError],
    not with the required-field error. *)
Theorem X3_not_a_mapping (ext : Externals) self doc :
  (forall m, doc <> PyDict m)
  \/ (exists docm dag, doc = PyDict docm /\ lookup "dag" docm = Some dag
                       /\ forall m, dag <> PyDict m) ->
  parse self doc = Raise TypeError.
Proof.
  unfold parse, _parse_yaml.
  intros [Hdoc | (docm & dag & -> & Hdag & Hnot)].
  - destruct doc as [| | | | |m]; try reflexivity. now elim (Hdoc m).
  - rewrite (try_get_present _ _ _ _ _ Hdag). cbn [bind].
    destruct dag as [| | | | |m]; try reflexivity. now elim (Hnot m).
Qed.

Lemma X3_not_a_mapping_witness :
  @parse (parser_externals []) a_parser PyNone = Raise TypeError
  /\ @parse (parser_externals []) a_parser
       (PyDict [("dag", PyList [PyStr "saude"])]) = Raise TypeError.
Proof.
  split.
  - apply (X3_not_a_mapping (parser_externals []) a_parser PyNone).
    left. discriminate.
  - apply (X3_not_a_mapping (parser_externals []) a_parser
             (PyDict [("dag", PyList [PyStr "saude"])])).
    right. exists [("dag", PyList [PyStr "saude"])], (PyList [PyStr "saude"]).
    repeat split. discriminate.
Defined.

Lemma try_get_agree self m m' k :
  lookup k m' = lookup k m ->
  _try_get self (PyDict m') k None = _try_get self (PyDict m) k None.
Proof. intros H. unfold _try_get, subscript. now rewrite H. Qed.

Lemma get_agree m m' k d :
  lookup k m' = lookup k m -> get (PyDict m') k d = get (PyDict m) k d.
Proof. intros H. cbn [get]. now rewrite H. Qed.

(** X4.  The legacy shape: a [search] that is a single block and not a
    list is parsed as the list holding that one block, the rest of the
    document being the same. *)
Theorem X4_single_search_is_one_element_list (ext : Externals) self
  doc doc' dag dag' s :
  lookup "dag" doc = Some (PyDict dag) ->
  lookup "dag" doc' = Some (PyDict dag') ->
  (forall k, k <> "search" -> lookup k dag' = lookup k dag) ->
  lookup "search" dag = Some s ->
  (forall l, s <> PyList l) ->
  lookup "search" dag' = Some (PyList [s]) ->
  parse self (PyDict doc') = parse self (PyDict doc).
Proof.
  intros Hdag Hdag' Hsame Hs Hnot Hs'. unfold parse, _parse_yaml.
  rewrite (try_get_present _ _ _ _ _ Hdag), (try_get_present _ _ _ _ _ Hdag').
  cbn [bind].
  assert (Hne : forall k, String.eqb k "search" = false ->
                          lookup k dag' = lookup k dag).
  { intros k E. apply Hsame. now apply String.eqb_neq. }
  rewrite (try_get_agree self dag dag' "id"),
    (try_get_agree self dag dag' "description"),
    (try_get_agree self dag dag' "report") by (apply Hne; reflexivity).
  rewrite (try_get_present _ _ _ _ _ Hs), (try_get_present _ _ _ _ _ Hs').
  rewrite (get_agree dag dag' "owner"), (get_agree dag dag' "schedule"),
    (get_agree dag dag' "dataset"), (get_agree dag dag' "doc_md"),
    (get_agree dag dag' "tags") by (apply Hne; reflexivity).
  destruct (_try_get self (PyDict dag) "id" None); [|reflexivity].
  destruct (_try_get self (PyDict dag) "description" None); [|reflexivity].
  destruct (_try_get self (PyDict dag) "report" None); [|reflexivity].
  cbn [bind].
  destruct s; try reflexivity. now elim (Hnot items).
Qed.

Lemma X4_single_search_is_one_element_list_witness :
  @parse (parser_externals []) a_parser
     (document (PyList [search_from_db]))
  = @parse (parser_externals []) a_parser (document search_from_db).
Proof.
  apply (X4_single_search_is_one_element_list (parser_externals []) a_parser
           [("dag",
             PyDict [("id", PyStr "saude");
                     ("description", PyStr "Termos de saude");
                     ("search", search_from_db);
                     ("report", PyDict [("emails",
                                         PyList [PyStr "a@example.org"])])])]
           [("dag",
             PyDict [("id", PyStr "saude");
                     ("description", PyStr "Termos de saude");
                     ("search", PyList [search_from_db]);
                     ("report", PyDict [("emails",
                                         PyList [PyStr "a@example.org"])])])]
           _ _ search_from_db eq_refl eq_refl).
  - intros k Hk. cbn. 
    destruct (String.eqb k "id"); [reflexivity|].
    destruct (String.eqb k "description"); [reflexivity|].
    destruct (String.eqb k "search") eqn:E;
      [apply String.eqb_eq in E; contradiction | reflexivity].
  - reflexivity.
  - discriminate.
  - reflexivity.
Defined.

(** X5.  A [ValueError] that [parse] raises from the file, and that does
    not come from opening and loading the file, from the variable store or
    from [textwrap.dedent], is the required-field message, which holds the
    file name and the field name, or the fixed message on the shape of
    [terms]. *)
Theorem X5_value_error_messages (ext : Externals)
  (load : string -> py_result pyvalue) self msg :
  parse_file load self = Raise (ValueError msg) ->
  load (filepath self) <> Raise (ValueError msg) ->
  (forall name, Variable_get name <> Raise (ValueError msg)) ->
  (forall v, textwrap_dedent v <> Raise (ValueError msg)) ->
  (exists field,
      msg = "Erro no arquivo " ++ last_component (filepath self)
            ++ ": O campo `" ++ field ++ "` é obrigatório."
      /\ occurs_in (last_component (filepath self)) msg
      /\ occurs_in field msg)
  \/ msg = terms_shape_msg.
Proof.
  intros H Hload Hvar Hdedent. unfold parse_file in H.
  destruct (load (filepath self)) as [doc|e] eqn:Hdoc; cbn [bind] in H.
  2:{ injection H as ->. now elim Hload. }
  destruct (parse_value_errors self doc msg H)
    as [[field ->] | [-> | [[name Hn] | [v Hv]]]].
  - left. exists field. split; [reflexivity|]. split.
    + apply occurs_in_middle.
    + exists ("Erro no arquivo " ++ last_component (filepath self)
              ++ ": O campo `"), "` é obrigatório.".
      now rewrite !append_assoc.
  - now right.
  - now elim (Hvar name).
  - now elim (Hdedent v).
Qed.

Lemma X5_value_error_messages_witness :
  @parse_file (parser_externals []) (fun _ => Return document_without_id)
     a_parser
  = Raise (ValueError "Erro no arquivo saude.yaml: O campo `id` é obrigatório.")
  /\ ((exists field,
          "Erro no arquivo saude.yaml: O campo `id` é obrigatório."
          = "Erro no arquivo " ++ last_component (filepath a_parser)
            ++ ": O campo `" ++ field ++ "` é obrigatório."
          /\ occurs_in (last_component (filepath a_parser))
               "Erro no arquivo saude.yaml: O campo `id` é obrigatório."
          /\ occurs_in field
               "Erro no arquivo saude.yaml: O campo `id` é obrigatório.")
      \/ "Erro no arquivo saude.yaml: O campo `id` é obrigatório."
         = terms_shape_msg).
Proof.
  split; [reflexivity|].
  apply (X5_value_error_messages (parser_externals [])
           (fun _ => Return document_without_id) a_parser _ eq_refl).
  - discriminate.
  - intros name. cbn. destruct name; try discriminate.
  - intros v. cbn. destruct v; discriminate.
Defined.

(** X6.  [parse] returns a configuration only for a document whose [dag]
    mapping holds id, description, search and a [report] that is a
    mapping; the configuration carries that id and that description, and
    one search configuration per search block. *)
Theorem X6_returned_configuration (ext : Externals) self doc cfg :
  parse self doc = Return cfg ->
  exists docm dag report s,
    doc = PyDict docm
    /\ lookup "dag" docm = Some (PyDict dag)
    /\ lookup "id" dag = Some (dag_id cfg)
    /\ lookup "description" dag = Some (description cfg)
    /\ lookup "report" dag = Some (PyDict report)
    /\ lookup "search" dag = Some s
    /\ List.length (search cfg)
       = match s with PyList l => List.length l | _ => 1 end.
Proof.
  intros H. apply parse_return in H
    as (docm & dag & report & s & tags & H).
  destruct H as (-> & Hdag & Hid & Hdesc & Hrep & Hs & Hfor & _).
  exists docm, dag, report, s. repeat split; try assumption.
  rewrite (for_each_length _ _ _ Hfor). now destruct s.
Qed.

Lemma X6_returned_configuration_witness :
  exists cfg docm dag report s,
    @parse (parser_externals []) a_parser
       (document (PyList [search_from_db; search_from_db])) = Return cfg
    /\ document (PyList [search_from_db; search_from_db]) = PyDict docm
    /\ lookup "dag" docm = Some (PyDict dag)
    /\ lookup "id" dag = Some (dag_id cfg)
    /\ lookup "description" dag = Some (description cfg)
    /\ lookup "report" dag = Some (PyDict report)
    /\ lookup "search" dag = Some s
    /\ List.length (search cfg)
       = match s with PyList l => List.length l | _ => 1 end.
Proof.
  eexists.
  destruct (X6_returned_configuration (parser_externals []) a_parser
              (document (PyList [search_from_db; search_from_db])) _ eq_refl)
    as (docm & dag & report & s & H).
  exists docm, dag, report, s. split; [reflexivity | exact H].
Defined.

(** X7.  In a returned configuration the optional report settings are the
    document's where given and else the defaults: [skip_null] true,
    [attach_csv] false, [hide_filters] false, the subject "Extraçao do
    DOU", no recipients. *)
Theorem X7_report_defaults (ext : Externals) self docm dag report cfg :
  lookup "dag" docm = Some (PyDict dag) ->
  lookup "report" dag = Some (PyDict report) ->
  parse self (PyDict docm) = Return cfg ->
  skip_null cfg = field_or report "skip_null" (PyBool true)
  /\ attach_csv cfg = field_or report "attach_csv" (PyBool false)
  /\ hide_filters cfg = field_or report "hide_filters" (PyBool false)
  /\ subject cfg = field_or report "subject" (PyStr "Extraçao do DOU")
  /\ emails cfg = field_or report "emails" PyNone.
Proof.
  intros Hdag Hrep H. apply parse_return in H
    as (docm' & dag' & report' & s & tags & H).
  destruct H as (Hdoc & Hdag' & _ & _ & Hrep' & _ & _ & _ & _ & _
                 & Hskip & Hemails & Hsubject & Hattach & Hhide & _).
  injection Hdoc as <-. rewrite Hdag in Hdag'. injection Hdag' as <-.
  rewrite Hrep in Hrep'. injection Hrep' as <-. auto.
Qed.

Lemma X7_report_defaults_witness :
  exists cfg,
    @parse (parser_externals []) a_parser (document search_from_db)
    = Return cfg
    /\ skip_null cfg = PyBool true
    /\ attach_csv cfg = PyBool false
    /\ hide_filters cfg = PyBool false
    /\ subject cfg = PyStr "Extraçao do DOU"
    /\ emails cfg = PyList [PyStr "a@example.org"].
Proof.
  eexists. split; [reflexivity|].
  exact (X7_report_defaults (parser_externals []) a_parser
           [("dag",
             PyDict [("id", PyStr "saude");
                     ("description", PyStr "Termos de saude");
                     ("search", search_from_db);
                     ("report", PyDict [("emails",
                                         PyList [PyStr "a@example.org"])])])]
           [("id", PyStr "saude");
            ("description", PyStr "Termos de saude");
            ("search", search_from_db);
            ("report", PyDict [("emails", PyList [PyStr "a@example.org"])])]
           [("emails", PyList [PyStr "a@example.org"])]
           _ eq_refl eq_refl eq_refl).
Defined.

(** X8.  In a returned configuration the owner is the declared list of
    names joined with ", ", and the empty text when no owner is
    declared. *)
Theorem X8_owner_joined (ext : Externals) self docm dag cfg :
  lookup "dag" docm = Some (PyDict dag) ->
  parse self (PyDict docm) = Return cfg ->
  match lookup "owner" dag with
  | None => owner cfg = ""
  | Some (PyList l) =>
      exists names, all_str l = Some names /\ owner cfg = join ", " names
  | Some _ => True
  end.
Proof.
  intros Hdag H. apply parse_return in H
    as (docm' & dag' & report' & s & tags & H).
  destruct H as (Hdoc & Hdag' & _ & _ & _ & _ & _ & Hjoin & _).
  injection Hdoc as <-. rewrite Hdag in Hdag'. injection Hdag' as <-.
  unfold field_or in Hjoin.
  destruct (lookup "owner" dag) as [[| | | | l |]|]; try exact I.
  - cbn [py_join] in Hjoin. destruct (all_str l) as [names|]; [|discriminate].
    injection Hjoin as <-. now exists names.
  - cbn in Hjoin. now injection Hjoin as <-.
Qed.

Lemma X8_owner_joined_witness :
  exists cfg,
    @parse (parser_externals []) a_parser
       (PyDict [("dag",
                 PyDict [("id", PyStr "saude");
                         ("description", PyStr "Termos de saude");
                         ("owner", PyList [PyStr "ana"; PyStr "joao"]);
                         ("search", search_from_db);
                         ("report", PyDict [])])]) = Return cfg
    /\ exists names,
         all_str [PyStr "ana"; PyStr "joao"] = Some names
         /\ owner cfg = join ", " names.
Proof.
  eexists. split; [reflexivity|].
  exact (X8_owner_joined (parser_externals []) a_parser
           [("dag",
             PyDict [("id", PyStr "saude");
                     ("description", PyStr "Termos de saude");
                     ("owner", PyList [PyStr "ana"; PyStr "joao"]);
                     ("search", search_from_db);
                     ("report", PyDict [])])]
           [("id", PyStr "saude");
            ("description", PyStr "Termos de saude");
            ("owner", PyList [PyStr "ana"; PyStr "joao"]);
            ("search", search_from_db);
            ("report", PyDict [])]
           _ eq_refl eq_refl).
Defined.

(** X9.  The required-field error names the file by the last component of
    its path: for the path [dir/name], with no slash in [name], the
    message starts "Erro no arquivo name:" and the directories are left
    out. *)
Theorem X9_error_names_file_without_directories self m field dir name :
  filepath self = dir ++ "/" ++ name ->
  forallb (fun a => negb (Ascii.eqb a "/")) (list_ascii_of_string name) = true ->
  lookup field m = None ->
  _try_get self (PyDict m) field None
  = Raise (ValueError ("Erro no arquivo " ++ name ++ ": O campo `" ++ field
                       ++ "` é obrigatório.")).
Proof.
  intros Hpath Hname Hfield.
  rewrite (try_get_absent _ _ _ Hfield), Hpath.
  now rewrite (last_component_of_path _ _ Hname).
Qed.

Lemma X9_error_names_file_without_directories_witness :
  _try_get a_parser (PyDict [("description", PyStr "x")]) "id" None
  = Raise (ValueError "Erro no arquivo saude.yaml: O campo `id` é obrigatório.").
Proof.
  exact (X9_error_names_file_without_directories a_parser
           [("description", PyStr "x")] "id" "/opt/airflow/dags/ro_dou"
           "saude.yaml" eq_refl eq_refl eq_refl).
Defined.

(** X10.  An Airflow variable holding one term per line (plain ASCII
    lines, the last one not empty), with or without a final line feed, and
    that [ast.literal_eval] rejects with [SyntaxError] or [ValueError],
    resolves to exactly those terms. *)
Theorem X10_terms_one_per_line (ext : Externals) self search m name
  (lines : list string) text :
  lookup "terms" search = Some (PyDict m) ->
  lookup "from_airflow_variable" m = Some name ->
  lines <> [] ->
  forallb plain_line lines = true ->
  last lines "." <> "" ->
  text = join nl lines \/ text = join nl (lines ++ [""]) ->
  Variable_get name = Return text ->
  literal_eval text = Raise SyntaxError
  \/ (exists msg, literal_eval text = Raise (ValueError msg)) ->
  _get_terms_params self (PyDict search)
  = Return (PyList (map PyStr lines), PyNone, PyNone).
Proof.
  intros Hterms Hname Hne Hplain Hlast Htext Hget Hlit.
  unfold _get_terms_params.
  rewrite (try_get_present _ _ _ _ _ Hterms). cbn [bind].
  rewrite Hname, Hget. cbn [bind].
  assert (Hsplit : splitlines text = lines).
  { destruct Htext as [-> | ->].
    - exact (splitlines_join _ Hplain Hlast).
    - exact (splitlines_join_final_empty _ Hne Hplain). }
  destruct Hlit as [-> | [msg ->]]; now rewrite Hsplit.
Qed.

Lemma X10_terms_one_per_line_witness :
  @_get_terms_params
     (parser_externals [("termos_saude",
                         join nl ["vacina"; "dados abertos"; ""])])
     a_parser search_from_variable
  = Return (PyList [PyStr "vacina"; PyStr "dados abertos"], PyNone, PyNone).
Proof.
  apply (X10_terms_one_per_line
           (parser_externals [("termos_saude",
                               join nl ["vacina"; "dados abertos"; ""])])
           a_parser
           [("header", PyStr "Saude");
            ("terms", PyDict [("from_airflow_variable", PyStr "termos_saude")])]
           [("from_airflow_variable", PyStr "termos_saude")]
           (PyStr "termos_saude") ["vacina"; "dados abertos"]
           (join nl ["vacina"; "dados abertos"; ""])).
  - reflexivity.
  - reflexivity.
  - discriminate.
  - reflexivity.
  - discriminate.
  - right. reflexivity.
  - reflexivity.
  - left. reflexivity.
Defined.

(** *** The search configurations *)

Lemma for_each_blocks {A B} (f : A -> py_result B) (xs : list A) ys :
  for_each f xs = Return ys -> Forall2 (fun x y => f x = Return y) xs ys.
Proof.
  revert ys. induction xs as [|x xs IH]; intros ys; cbn [for_each].
  - intros [= <-]. constructor.
  - intros H. apply bind_return in H as (y & Hy & H).
    apply bind_return in H as (ys' & Hys & H).
    injection H as <-. constructor; [exact Hy | now apply IH].
Qed.

Lemma get_terms_params_return (ext : Externals) self search t q c :
  _get_terms_params self search = Return (t, q, c) ->
  (q = PyNone /\ c = PyNone) \/ t = PyList [].
Proof.
  unfold _get_terms_params. intros H.
  apply bind_return in H as (terms & _ & H).
  destruct terms as [| | | | |m]; try (injection H as <- <- <-; now left).
  destruct (lookup "from_airflow_variable" m) as [name|].
  - apply bind_return in H as (text & _ & H).
    destruct (literal_eval text) as [v|[]]; try discriminate;
      injection H as <- <- <-; now left.
  - destruct (lookup "from_db_select" m) as [fds|]; [|discriminate].
    apply bind_return in H as (sql & _ & H).
    apply bind_return in H as (conn & _ & H).
    injection H as <- <- <-. now right.
Qed.

(** What the loop body returns for one search block. *)
Lemma parse_subsearch_return (ext : Externals) self subsearch sc :
  parse_subsearch self subsearch = Return sc ->
  exists b,
    subsearch = PyDict b
    /\ _get_terms_params self subsearch = Return (terms sc, sql sc, conn_id sc)
    /\ header sc = field_or b "header" PyNone
    /\ sources sc = field_or b "sources" (PyList [PyStr "DOU"])
    /\ dou_sections sc = field_or b "dou_sections" (PyList [PyStr "TODOS"])
    /\ search_date sc = field_or b "date" (PyStr "DIA")
    /\ field sc = field_or b "field" (PyStr "TUDO")
    /\ is_exact_search sc = field_or b "is_exact_search" (PyBool true)
    /\ ignore_signature_match sc
       = field_or b "ignore_signature_match" (PyBool false)
    /\ territory_id sc = field_or b "territory_id" PyNone
    /\ department sc = field_or b "department" PyNone.
Proof.
  unfold parse_subsearch. intros H.
  apply bind_return in H as (h & Hh & H).
  apply bind_return in H as (so & Hso & H).
  apply bind_return in H as ([[t q] c] & Ht & H).
  repeat (apply bind_return in H as (? & ? & H)).
  injection H as <-. cbn.
  repeat match goal with
         | Hx : get _ _ _ = Return _ |- _ =>
             apply get_return_field in Hx as (? & ? & ?)
         | Hx : PyDict _ = PyDict _ |- _ => injection Hx as Hx
         | Hx : ?a = ?b |- _ => first [subst a | subst b]
         end.
  eexists. repeat split; try eassumption; try reflexivity.
Qed.

(** X11.  In a returned configuration every search carries either no
    query ([sql] and [conn_id] are [None]) or an empty list of terms: a
    search never has both literal terms and a query. *)
Theorem X11_terms_or_query (ext : Externals) self doc cfg :
  parse self doc = Return cfg ->
  Forall (fun sc => (sql sc = PyNone /\ conn_id sc = PyNone)
                    \/ terms sc = PyList [])
         (search cfg).
Proof.
  intros H. apply parse_return in H
    as (docm & dag & report & s & tags & H).
  destruct H as (_ & _ & _ & _ & _ & _ & Hfor & _).
  apply for_each_blocks in Hfor.
  induction Hfor as [|blk sc blks scs Hblk _ IH]; constructor; [|exact IH].
  apply parse_subsearch_return in Hblk as (b & _ & Ht & _).
  exact (get_terms_params_return _ _ _ _ _ _ Ht).
Qed.

Lemma X11_terms_or_query_witness :
  exists cfg,
    @parse (parser_externals [("termos_saude", text_list_ab)]) a_parser
       (document (PyList [search_from_db; search_from_variable]))
    = Return cfg
    /\ Forall (fun sc => (sql sc = PyNone /\ conn_id sc = PyNone)
                         \/ terms sc = PyList [])
              (search cfg).
Proof.
  eexists. split; [reflexivity|].
  exact (X11_terms_or_query
           (parser_externals [("termos_saude", text_list_ab)]) a_parser
           (document (PyList [search_from_db; search_from_variable]))
           _ eq_refl).
Defined.

(** X12.  The search configurations of a returned configuration follow
    the search blocks one for one, in order; each block is a mapping, and
    its configuration holds the block's values where given and else the
    defaults: sources ["DOU"], dou_sections ["TODOS"], search_date "DIA"
    (read from the key [date]), field "TUDO", is_exact_search true,
    ignore_signature_match false. *)
Theorem X12_search_defaults (ext : Externals) self docm dag s cfg :
  lookup "dag" docm = Some (PyDict dag) ->
  lookup "search" dag = Some s ->
  parse self (PyDict docm) = Return cfg ->
  Forall2 (fun blk sc =>
             exists b,
               blk = PyDict b
               /\ header sc = field_or b "header" PyNone
               /\ sources sc = field_or b "sources" (PyList [PyStr "DOU"])
               /\ dou_sections sc
                  = field_or b "dou_sections" (PyList [PyStr "TODOS"])
               /\ search_date sc = field_or b "date" (PyStr "DIA")
               /\ field sc = field_or b "field" (PyStr "TUDO")
               /\ is_exact_search sc
                  = field_or b "is_exact_search" (PyBool true)
               /\ ignore_signature_match sc
                  = field_or b "ignore_signature_match" (PyBool false))
          (match s with PyList l => l | _ => [s] end) (search cfg).
Proof.
  intros Hdag Hs H. apply parse_return in H
    as (docm' & dag' & report & s' & tags & H).
  destruct H as (Hdoc & Hdag' & _ & _ & _ & Hs' & Hfor & _).
  injection Hdoc as <-. rewrite Hdag in Hdag'. injection Hdag' as <-.
  rewrite Hs in Hs'. injection Hs' as <-.
  apply for_each_blocks in Hfor.
  induction Hfor as [|blk sc blks scs Hblk _ IH]; constructor; [|exact IH].
  apply parse_subsearch_return in Hblk
    as (b & -> & _ & Hh & Hso & Hdou & Hdate & Hfield & Hex & Hig & _).
  exists b. repeat split; assumption.
Qed.

Lemma X12_search_defaults_witness :
  exists cfg,
    @parse (parser_externals []) a_parser (document search_from_db)
    = Return cfg
    /\ Forall2 (fun blk sc =>
             exists b,
               blk = PyDict b
               /\ header sc = field_or b "header" PyNone
               /\ sources sc = field_or b "sources" (PyList [PyStr "DOU"])
               /\ dou_sections sc
                  = field_or b "dou_sections" (PyList [PyStr "TODOS"])
               /\ search_date sc = field_or b "date" (PyStr "DIA")
               /\ field sc = field_or b "field" (PyStr "TUDO")
               /\ is_exact_search sc
                  = field_or b "is_exact_search" (PyBool true)
               /\ ignore_signature_match sc
                  = field_or b "ignore_signature_match" (PyBool false))
          [search_from_db] (search cfg).
Proof.
  eexists. split; [reflexivity|].
  exact (X12_search_defaults (parser_externals []) a_parser
           [("dag",
             PyDict [("id", PyStr "saude");
                     ("description", PyStr "Termos de saude");
                     ("search", search_from_db);
                     ("report", PyDict [("emails",
                                         PyList [PyStr "a@example.org"])])])]
           [("id", PyStr "saude");
            ("description", PyStr "Termos de saude");
            ("search", search_from_db);
            ("report", PyDict [("emails", PyList [PyStr "a@example.org"])])]
           search_from_db _ eq_refl eq_refl eq_refl).
Defined.

End ParserExtra.

(** ** Further properties of the e-mail sender *)

Module EmailExtra.
Import Pandas EmailSender Examples Stated Measures EmailProps.

(** *** The rows of the export *)

(** One row per match. *)
Lemma tuple_list_length (search_report : list SearchBlock) :
  List.length (convert_report_dict_to_tuple_list search_report)
  = total_matches search_report.
Proof.
  unfold convert_report_dict_to_tuple_list, total_matches.
  induction search_report as [|search rest IH]; [reflexivity|].
  cbn [flat_map]. rewrite !length_app, IH. f_equal.
  induction (result search) as [|[group results] groups IHg]; [reflexivity|].
  cbn [flat_map snd]. rewrite !length_app, IHg. f_equal.
  induction results as [|[term matches] results IHr]; [reflexivity|].
  cbn [flat_map snd]. now rewrite !length_app, IHr, length_map.
Qed.

(** Without any term entry there is no row. *)
Lemma no_row_when_groups_empty (search_report : list SearchBlock) :
  all_groups_empty search_report = true ->
  convert_report_dict_to_tuple_list search_report = [].
Proof.
  unfold convert_report_dict_to_tuple_list, all_groups_empty.
  induction search_report as [|search rest IH]; [reflexivity|].
  cbn [forallb flat_map]. intros H. apply andb_prop in H as [Hb Hrest].
  rewrite (IH Hrest), app_nil_r.
  induction (result search) as [|[group results] groups IHg]; [reflexivity|].
  cbn [forallb snd] in Hb. apply andb_prop in Hb as [Hg Hgs].
  cbn [flat_map]. rewrite (IHg Hgs), app_nil_r.
  now destruct results.
Qed.

(** *** When the notification is skipped, and when it is sent *)

(** X13.  [send] returns "skip_notification" without calling the mail
    sink exactly when [skip_null] is set and no group of any block holds a
    term entry. *)
Theorem X13_skip_exactly_when (ext : Externals) specs search_report
  report_date outbox :
  send specs search_report report_date outbox
  = (Return (Some "skip_notification"), outbox)
  <-> all_groups_empty search_report = true /\ skip_null specs = true.
Proof.
  split.
  - apply send_skips_only_when_groups_empty.
  - intros [Hempty Hskip]. unfold send, scan_report.
    rewrite (scan_all_groups_empty _ _ Hempty), Hskip.
    now destruct search_report.
Qed.

(** X14.  When some group holds a term entry and no CSV is asked for,
    [send] calls the mail sink once, whatever [skip_null]: the recipients
    are the configured ones, the subject is "{subject} - DOs de {date}",
    the body is the expansion of the report's markup, there is no
    attachment; a failure of the sink is the failure of [send]. *)
Theorem X14_report_is_sent (ext : Externals) specs search_report
  report_date outbox :
  all_groups_empty search_report = false ->
  attach_csv specs = false ->
  send specs search_report report_date outbox
  = (match send_email
             {| to := emails specs;
                mail_subject := subject specs ++ " - DOs de " ++ report_date;
                files := [];
                html_content := markdown (email_source search_report);
                mime_charset := "utf-8" |} with
     | Return _ => Return None
     | Raise e => Raise e
     end,
     (outbox ++ [{| to := emails specs;
                    mail_subject :=
                      subject specs ++ " - DOs de " ++ report_date;
                    files := [];
                    html_content := markdown (email_source search_report);
                    mime_charset := "utf-8" |}])%list).
Proof.
  intros Hfilled Hattach. unfold send.
  pose proof (skip_flag search_report) as Hflag.
  destruct (scan_report search_report) as [skip content].
  cbn [fst] in Hflag. rewrite Hfilled in Hflag. subst skip.
  rewrite Hattach. reflexivity.
Qed.

Lemma X14_report_is_sent_witness :
  all_groups_empty report_two_blocks = false
  /\ snd (@send email_externals (specs_of false true) report_two_blocks
            "02/01/2024" [])
     = [{| to := ["a@example.org"];
           mail_subject := "Extraçao do DOU - DOs de 02/01/2024";
           files := [];
           html_content :=
             @markdown email_externals
               (@email_source email_externals report_two_blocks);
           mime_charset := "utf-8" |}].
Proof.
  split; [reflexivity|].
  exact (f_equal snd
           (X14_report_is_sent email_externals (specs_of false true)
              report_two_blocks "02/01/2024" [] eq_refl eq_refl)).
Defined.

(** X15.  [send] never removes or alters earlier calls of the mail sink
    and makes at most one call; a call it makes goes to the configured
    recipients with the subject "{subject} - DOs de {date}" in UTF-8, and
    [send] then returns [None] or raises what the sink raised. *)
Theorem X15_at_most_one_mail (ext : Externals) specs search_report
  report_date outbox :
  snd (send specs search_report report_date outbox) = outbox
  \/ exists call,
       snd (send specs search_report report_date outbox)
       = (outbox ++ [call])%list
       /\ fst (send specs search_report report_date outbox)
          = match send_email call with
            | Return _ => Return None
            | Raise e => Raise e
            end
       /\ to call = emails specs
       /\ mail_subject call = subject specs ++ " - DOs de " ++ report_date
       /\ mime_charset call = "utf-8".
Proof.
  unfold send. destruct (scan_report search_report) as [skip content].
  destruct (skip && skip_null specs); [now left|].
  destruct (attach_csv specs && negb skip).
  - destruct (get_csv_tempfile search_report) as [csv|e]; [|now left].
    destruct (read_content _) as [c|e]; [|now left].
    right. eexists. repeat split.
  - destruct (read_content _) as [c|e]; [|now left].
    right. eexists. repeat split.
Qed.

(** X16.  With a CSV asked for and at least one match in the report,
    [send] calls the mail sink with one attachment, the file
    "extracao_dou_*.csv" holding the exported frame, and the expansion of
    the report's markup as body. *)
Theorem X16_csv_is_attached (ext : Externals) specs search_report
  report_date outbox :
  total_matches search_report <> 0 ->
  attach_csv specs = true ->
  exists df,
    convert_report_to_dataframe search_report = Return df
    /\ send specs search_report report_date outbox
       = deliver {| to := emails specs;
                    mail_subject :=
                      subject specs ++ " - DOs de " ++ report_date;
                    files := [{| prefix := "extracao_dou_"; suffix := ".csv";
                                 written := df |}];
                    html_content := markdown (email_source search_report);
                    mime_charset := "utf-8" |} outbox.
Proof.
  intros Hmatches Hattach. rewrite <- tuple_list_length in Hmatches.
  assert (Hrows : convert_report_dict_to_tuple_list search_report <> []).
  { intros E. now rewrite E in Hmatches. }
  destruct (convert_report_to_dataframe_columns _ Hrows) as (df & Hdf & _).
  exists df. split; [exact Hdf|].
  assert (Hfilled : all_groups_empty search_report = false).
  { destruct (all_groups_empty search_report) eqn:E; [|reflexivity].
    now elim Hrows; apply no_row_when_groups_empty. }
  unfold send. pose proof (skip_flag search_report) as Hflag.
  destruct (scan_report search_report) as [skip content].
  cbn [fst] in Hflag. rewrite Hfilled in Hflag. subst skip.
  rewrite Hattach. cbn [andb negb]. unfold get_csv_tempfile.
  rewrite Hdf. reflexivity.
Qed.

Lemma X16_csv_is_attached_witness :
  total_matches report_two_blocks <> 0
  /\ exists df,
       convert_report_to_dataframe report_two_blocks = Return df
       /\ @send email_externals (specs_of true true) report_two_blocks
            "02/01/2024" []
          = @deliver email_externals
              {| to := ["a@example.org"];
                 mail_subject := "Extraçao do DOU - DOs de 02/01/2024";
                 files := [{| prefix := "extracao_dou_"; suffix := ".csv";
                              written := df |}];
                 html_content :=
                   @markdown email_externals
                     (@email_source email_externals report_two_blocks);
                 mime_charset := "utf-8" |} [].
Proof.
  assert (H : total_matches report_two_blocks <> 0) by discriminate.
  split; [exact H|].
  exact (X16_csv_is_attached email_externals (specs_of true true)
           report_two_blocks "02/01/2024" [] H eq_refl).
Defined.

(** X17.  With a CSV asked for, a term entry somewhere and no match at
    all, [send] fails on the column names of the empty frame before it
    calls the mail sink. *)
Theorem X17_csv_of_no_match_fails (ext : Externals) specs search_report
  report_date outbox :
  all_groups_empty search_report = false ->
  total_matches search_report = 0 ->
  attach_csv specs = true ->
  send specs search_report report_date outbox
  = (Raise (ValueError ("Length mismatch: Expected axis has 0 elements, "
                        ++ "new values have 8 elements")), outbox).
Proof.
  intros Hfilled Hmatches Hattach. rewrite <- tuple_list_length in Hmatches.
  apply length_zero_iff_nil in Hmatches.
  unfold send. pose proof (skip_flag search_report) as Hflag.
  destruct (scan_report search_report) as [skip content].
  cbn [fst] in Hflag. rewrite Hfilled in Hflag. subst skip.
  rewrite Hattach. cbn [andb negb].
  unfold get_csv_tempfile, convert_report_to_dataframe.
  rewrite Hmatches. reflexivity.
Qed.

Lemma X17_csv_of_no_match_fails_witness :
  all_groups_empty report_term_without_match = false
  /\ total_matches report_term_without_match = 0
  /\ @send email_externals (specs_of true false) report_term_without_match
       "02/01/2024" []
     = (Raise (ValueError ("Length mismatch: Expected axis has 0 elements, "
                           ++ "new values have 8 elements")), []).
Proof.
  split; [reflexivity|]. split; [reflexivity|].
  exact (X17_csv_of_no_match_fails email_externals (specs_of true false)
           report_term_without_match "02/01/2024" [] eq_refl eq_refl eq_refl).
Defined.

(** *** The exported frame *)

Lemma remove_at_length {A} (i : nat) (l : list A) :
  i < List.length l -> S (List.length (remove_at i l)) = List.length l.
Proof.
  revert i. induction l as [|x l IH]; intros i Hi; cbn in *; [lia|].
  destruct i as [|i]; [reflexivity|]. cbn. rewrite IH; [reflexivity | lia].
Qed.

Lemma all_rows_have_eight_cells (search_report : list SearchBlock) :
  Forall (fun row => List.length row = 8)
         (convert_report_dict_to_tuple_list search_report).
Proof.
  apply Forall_forall. intros row.
  apply repacked_rows_have_eight_cells.
Qed.

Lemma return_inj {A} (a b : A) : Return a = Return b -> a = b.
Proof. now intros [=]. Qed.

Lemma del_column_at (df : DataFrame) (name : string) (i : nat) :
  index_of (Name name) (columns df) = Some i ->
  del_column df name
  = Return {| columns := remove_at i (columns df);
              rows := map (remove_at i) (rows df) |}.
Proof. intros H. unfold del_column. now rewrite H. Qed.

Lemma rows_after_removal (i n : nat) (rs : list (list cell)) :
  i < S n ->
  Forall (fun row => List.length row = S n) rs ->
  Forall (fun row => List.length row = n) (map (remove_at i) rs).
Proof.
  intros Hi H. apply Forall_map. eapply Forall_impl; [|exact H].
  intros row Hrow. cbn beta in *.
  assert (Hlt : i < List.length row) by lia.
  pose proof (remove_at_length i row Hlt). lia.
Qed.

(** X18.  The frame the export returns is well formed: it has one row per
    match of the report, eight columns less the dropped ones, and every
    row has exactly one cell per column. *)
Theorem X18_exported_frame (search_report : list SearchBlock) df :
  convert_report_to_dataframe search_report = Return df ->
  List.length (rows df) = total_matches search_report
  /\ List.length (columns df) = kept_columns search_report
  /\ Forall (fun row => List.length row = List.length (columns df)) (rows df).
Proof.
  unfold convert_report_to_dataframe, scan_flags, kept_columns.
  rewrite scan_flags_fold, <- tuple_list_length. cbn [andb orb].
  pose proof (all_rows_have_eight_cells search_report) as Hall.
  destruct (convert_report_dict_to_tuple_list search_report) as [|r rs] eqn:E;
    [discriminate|].
  assert (Hlen : List.length r = 8) by now inversion Hall.
  unfold of_records, set_columns. cbn [columns rows].
  rewrite length_map, length_seq, Hlen.
  cbn [Nat.eqb List.length csv_columns bind].
  destruct (forallb _ search_report), (existsb _ search_report).
  - rewrite (del_column_at _ "Consulta" 0) by reflexivity. cbn [bind].
    rewrite (del_column_at _ "Grupo" 0) by reflexivity. cbn [bind].
    intros H. apply return_inj in H. subst df. cbn [rows columns].
    rewrite !length_map.
    repeat split; try reflexivity.
    apply (rows_after_removal 0 6); [lia|].
    apply (rows_after_removal 0 7); [lia | exact Hall].
  - rewrite (del_column_at _ "Consulta" 0) by reflexivity. cbn [bind].
    intros H. apply return_inj in H. subst df. cbn [rows columns].
    rewrite !length_map.
    repeat split; try reflexivity.
    apply (rows_after_removal 0 7); [lia | exact Hall].
  - cbn [bind]. rewrite (del_column_at _ "Grupo" 1) by reflexivity.
    cbn [bind].
    intros H. apply return_inj in H. subst df. cbn [rows columns].
    rewrite !length_map.
    repeat split; try reflexivity.
    apply (rows_after_removal 1 7); [lia | exact Hall].
  - cbn [bind]. intros H. apply return_inj in H. subst df.
    cbn [rows columns]. repeat split; try reflexivity. exact Hall.
Qed.

Lemma X18_exported_frame_witness :
  exists df,
    convert_report_to_dataframe report_two_blocks = Return df
    /\ List.length (rows df) = 2
    /\ List.length (columns df) = 7
    /\ Forall (fun row => List.length row = List.length (columns df))
              (rows df).
Proof.
  eexists. split; [reflexivity|].
  exact (X18_exported_frame report_two_blocks _ eq_refl).
Defined.

(** *** A header that is the empty text *)

Lemma rows_without_label (search_report : list SearchBlock) :
  Forall (fun b => header b = None \/ header b = Some "") search_report ->
  Forall (fun row => hd_error row = Some None)
         (convert_report_dict_to_tuple_list search_report).
Proof.
  intros H. apply Forall_forall. intros row Hrow.
  unfold convert_report_dict_to_tuple_list in Hrow.
  apply in_flat_map in Hrow as (search & Hin & Hrow).
  apply in_flat_map in Hrow as ([group results] & _ & Hrow).
  apply in_flat_map in Hrow as ([term matches] & _ & Hrow).
  apply in_map_iff in Hrow as (m & <- & _).
  rewrite Forall_forall in H. unfold header_or_none.
  destruct (H search Hin) as [-> | ->]; reflexivity.
Qed.

Lemma hd_after_removal (row : list cell) :
  List.length row = 8 -> hd_error (remove_at 1 row) = hd_error row.
Proof. destruct row as [|a [|b row]]; cbn; try discriminate; reflexivity. Qed.

(** X19.  A header that is the empty text counts as a header for the
    columns and as none for the cells: when the headers of the report are
    absent or empty and one at least is the empty text, the export keeps
    the column [Consulta] as its first column, and every row has [None]
    there. *)
Theorem X19_empty_header_keeps_empty_column (search_report : list SearchBlock)
  df :
  Forall (fun b => header b = None \/ header b = Some "") search_report ->
  Exists (fun b => header b = Some "") search_report ->
  convert_report_to_dataframe search_report = Return df ->
  hd_error (columns df) = Some (Name "Consulta")
  /\ Forall (fun row => hd_error row = Some None) (rows df).
Proof.
  intros Hall Hex.
  assert (Hkeep : forallb (fun b => match header b with
                                    | None => true
                                    | Some _ => false
                                    end) search_report = false).
  { apply Exists_exists in Hex as (b & Hin & Hb).
    destruct (forallb _ search_report) eqn:E; [|reflexivity].
    rewrite forallb_forall in E. specialize (E b Hin).
    rewrite Hb in E. discriminate. }
  pose proof (rows_without_label _ Hall) as Hrows.
  pose proof (all_rows_have_eight_cells search_report) as Height.
  unfold convert_report_to_dataframe, scan_flags.
  rewrite scan_flags_fold, Hkeep. cbn [andb orb].
  destruct (convert_report_dict_to_tuple_list search_report) as [|r rs] eqn:E;
    [discriminate|].
  assert (Hlen : List.length r = 8) by now inversion Height.
  unfold of_records, set_columns. cbn [columns rows].
  rewrite length_map, length_seq, Hlen.
  cbn [Nat.eqb List.length csv_columns bind].
  destruct (existsb _ search_report).
  - rewrite (del_column_at _ "Grupo" 1) by reflexivity. cbn [bind].
    intros H. apply return_inj in H. subst df. cbn [rows columns].
    split; [reflexivity|].
    apply Forall_map. rewrite Forall_forall in *. intros row Hrow.
    rewrite hd_after_removal; auto.
  - intros H. apply return_inj in H. subst df. cbn [rows columns].
    split; [reflexivity | exact Hrows].
Qed.

Lemma X19_empty_header_keeps_empty_column_witness :
  exists df,
    convert_report_to_dataframe
      [{| header := Some ""; department := None;
          result := [("pessoal", [("servidor", [another_match])])] |}]
    = Return df
    /\ hd_error (columns df) = Some (Name "Consulta")
    /\ Forall (fun row => hd_error row = Some None) (rows df).
Proof.
  eexists. split; [reflexivity|].
  apply (X19_empty_header_keeps_empty_column
           [{| header := Some ""; department := None;
               result := [("pessoal", [("servidor", [another_match])])] |}]).
  - constructor; [now right | constructor].
  - now constructor.
  - reflexivity.
Defined.

(** *** The markup of the report *)

(** X21.  Every term entry of the report is announced in the e-mail
    markup by its line "* # Resultados para: {term}", also a term whose
    match list is empty. *)
Theorem X21_every_term_is_announced (ext : Externals)
  (search_report : list SearchBlock) search group results term items :
  In search search_report ->
  In (group, results) (result search) ->
  In (term, items) results ->
  In ("* # Resultados para: " ++ term)
     (flat_map block_fragments search_report).
Proof.
  intros Hsearch Hgroup Hterm.
  apply in_flat_map. exists search. split; [exact Hsearch|].
  unfold block_fragments.
  apply in_or_app. right. apply in_or_app. right. apply in_or_app. left.
  apply in_flat_map. exists (group, results). split; [exact Hgroup|].
  unfold group_fragments.
  destruct results as [|r results]; [now elim Hterm|]. cbn [nonempty negb].
  apply in_or_app. right.
  apply in_flat_map. exists (term, items). split; [exact Hterm|].
  right. now left.
Qed.

Lemma X21_every_term_is_announced_witness :
  In ("* # Resultados para: " ++ "dengue")
     (flat_map (@block_fragments email_externals) report_term_without_match).
Proof.
  apply (X21_every_term_is_announced email_externals
           report_term_without_match
           {| header := None; department := None;
              result := [("single_group", [("dengue", [])])] |}
           "single_group" [("dengue", [])] "dengue" []).
  - now left.
  - now left.
  - now left.
Defined.

End EmailExtra.

(** ** Further properties of the chat sender *)

Module SlackExtra.
Import SlackSender Examples Measures SlackProps.

Lemma term_blocks_nil (results : term_results) :
  flat_map (fun kv => term_blocks_spec (fst kv) (snd kv)) results = []
  <-> forallb (fun term => match snd term with
                           | [] => true
                           | _ => false
                           end) results = true.
Proof.
  induction results as [|[term items] results IH]; cbn [flat_map forallb].
  - tauto.
  - cbn [fst snd]. destruct items as [|item items].
    + cbn. exact IH.
    + cbn. split; discriminate.
Qed.

Lemma render_blocks_nil (search_report : group_results) :
  render_blocks_spec search_report = [] <-> silent search_report = true.
Proof.
  unfold render_blocks_spec, silent.
  induction search_report as [|[group results] rest IH];
    cbn [flat_map forallb fst snd].
  - tauto.
  - rewrite andb_true_iff, andb_true_iff, <- IH, <- term_blocks_nil.
    unfold group_blocks_spec.
    destruct (String.eqb group single_group); cbn.
    + split.
      * intros H. apply app_eq_nil in H. tauto.
      * intros [[_ ->] ->]. reflexivity.
    + split; [discriminate | intros [[H _] _]; discriminate].
Qed.

(** X20.  [send] always posts, also when there is nothing to tell: on a
    fresh instance the payload has no block exactly when every group of
    the report is "single_group" and no term has a match. *)
Theorem X20_empty_payload (ext : Externals) specs
  (search_report : group_results) report_date log :
  exists post,
    snd (send (init specs) search_report report_date log)
    = (log ++ [post])%list
    /\ url post = slack_webhook specs
    /\ (data post = JObj [("blocks", JArr [])]
        <-> silent search_report = true).
Proof.
  unfold send, _flush. rewrite add_groups_spec. cbn [snd init blocks
    webhook_url app].
  eexists. split; [reflexivity|]. split; [reflexivity|].
  cbn [data]. rewrite <- render_blocks_nil. split.
  - intros [= H]. exact H.
  - intros ->. reflexivity.
Qed.

End SlackExtra.
